(** * Atlas hydroponic dashboard: the data pipeline of [app.py]

    A shallow embedding of the data-transformation and threshold-alerting
    code of [app.py] (loader, cleaner, aggregator, projector, alert cards),
    with the properties its specification states about them.

    Conventions of the embedding.
    - A Python float is a rational number or NaN: [num := option Q], with
      [None] for NaN / [pd.NA].  Arithmetic and comparisons follow IEEE on
      NaN (a comparison with NaN is false, an operation on NaN is NaN) and
      are exact on finite values; decimal literals of the source ([5.2],
      [1.02], ...) are read as the decimal numbers they denote.
    - A calendar date is its day number, an integer; [NaT] is [None].
    - A raised Python exception is a value of [exn]; code that may raise
      returns [result A = exn + A].
    - A table (pandas DataFrame) is the list of its rows, in row order.
    - Presentation (chart and page-layout calls) is left out; an alert card is
      the record of the five arguments [get_alert_card] receives. *)

From Stdlib Require Import List String Ascii ZArith QArith Qminmax Lqa Lia Bool.
From Stdlib Require Import DecimalString.
From Stdlib Require Import Sorting.Sorted.
From Stdlib Require Import OrderedTypeEx.
Import ListNotations.

(** ** Exceptions and fallible computations *)

Inductive exn : Set :=
| ConnectionError   (* raised by [requests.get] *)
| KeyError          (* a column that the frame does not have *)
| IndexError        (* [.iloc] out of bounds *)
| ValueError
| TypeError
| Unmodelled.       (* not an exception: the input is outside the model *)

Definition result (A : Type) : Type := (exn + A)%type.

Definition Ok {A : Type} (a : A) : result A := inr a.
Definition Raise {A : Type} (e : exn) : result A := inl e.

Definition bind {A B : Type} (m : result A) (k : A -> result B) : result B :=
  match m with
  | inl e => inl e
  | inr a => k a
  end.

Notation "x <- m ;; k" := (bind m (fun x => k))
  (at level 61, m at next level, right associativity).

(** ** Numbers *)

Module Num.

Open Scope Q_scope.

Definition num : Type := option Q.

Definition NaN : num := None.

Definition Qltb (x y : Q) : bool := negb (Qle_bool y x).

(** [a < b] on floats: false as soon as one side is NaN. *)
Definition lt (a b : num) : bool :=
  match a, b with
  | Some x, Some y => Qltb x y
  | _, _ => false
  end.

(** [a > b]. *)
Definition gt (a b : num) : bool := lt b a.

Definition add (a b : num) : num :=
  match a, b with
  | Some x, Some y => Some (x + y)
  | _, _ => None
  end.

Definition mul (a b : num) : num :=
  match a, b with
  | Some x, Some y => Some (x * y)
  | _, _ => None
  end.

(** Python's builtin [min(a, b)]: [b] when [b < a], else [a]. *)
Definition py_min (a b : num) : num := if lt b a then b else a.

Definition Qsum (l : list Q) : Q := fold_right Qplus 0 l.

(** The values of a column that are not missing. *)
Fixpoint present (col : list num) : list Q :=
  match col with
  | [] => []
  | Some x :: col' => x :: present col'
  | None :: col' => present col'
  end.

Definition arith_mean (l : list Q) : num :=
  match l with
  | [] => NaN
  | _ :: _ => Some (Qsum l / inject_Z (Z.of_nat (List.length l)))
  end.

(** [Series.mean()]: missing values are skipped; NaN when nothing is left.
    The sum and the quotient are exact here, where pandas rounds them to a
    double, so the two can differ in the last digit. *)
Definition mean (col : list num) : num := arith_mean (present col).

End Num.

Import Num.
Open Scope Q_scope.
Open Scope string_scope.

(** ** Data Loader ([fetch_data], lines 29-44)

    The remote service answers a GET with a status code and a JSON array of
    flat records.  A frame built from such an array has a row per record, in
    order, and a column per key; a frame with no record has no column
    either.  A number is its value, whether the frame holds it as an integer
    or as a float. *)

Inductive cell : Type :=
| Null                 (* JSON null; a missing value *)
| Number (q : Q)
| Text (s : string)
| NA.                  (* [pd.NA] *)

Definition json_record : Type := list (string * cell).

Definition DataFrame : Type := list json_record.

Record response : Type := {
  status_code : Z;
  json : list json_record
}.

(** The network: what [requests.get] does for a URL, an answer or an
    exception. *)
Definition network : Type := string -> result response.

Definition API_BASE_URL : string :=
  "https://atlas-dashboard-backend.onrender.com/api/".

(** The distinct strings of a list, in order of first appearance
    ([Series.unique()]; the order of the columns of a frame). *)
Fixpoint unique (l : list string) : list string :=
  match l with
  | [] => []
  | x :: l' => x :: filter (fun y => negb (y =? x)%string) (unique l')
  end.

(** The value of a key in a record. *)
Definition lookup (key : string) (record : json_record) : option cell :=
  match find (fun kv => (fst kv =? key)%string) record with
  | Some kv => Some (snd kv)
  | None => None
  end.

(** The columns of [pd.DataFrame(records)]: the keys of the records. *)
Definition frame_columns (records : list json_record) : list string :=
  unique (List.concat (map (map fst) records)).

(** [pd.DataFrame(records)]: every row has every column, the value of the
    record where it has the key and a missing value, written [Null], where it
    has not. *)
Definition DataFrame_of_records (records : list json_record) : DataFrame :=
  map (fun record =>
         map (fun key => (key, match lookup key record with
                               | Some c => c
                               | None => Null
                               end))
           (frame_columns records))
    records.

(** [.replace("", pd.NA)] on one cell. *)
Definition replace_empty (c : cell) : cell :=
  match c with
  | Text "" => NA
  | _ => c
  end.

Definition replace_empty_frame (df : DataFrame) : DataFrame :=
  map (map (fun kv => (fst kv, replace_empty (snd kv)))) df.

Definition fetch_data (requests_get : network) (endpoint : string)
  : result DataFrame :=
  response <- requests_get (API_BASE_URL ++ endpoint) ;;
  if (status_code response =? 200)%Z
  then Ok (replace_empty_frame (DataFrame_of_records (json response)))
  else Ok [].

Definition endpoints : list string :=
  ["unit-parameters"; "sun-data"; "unit-measurements"; "plant-growth";
   "plant-harvest"].

(** The generator of line 42, consumed left to right by the tuple
    assignment: an exception in one fetch ends the whole assignment. *)
Fixpoint fetch_each (requests_get : network) (eps : list string)
  : result (list DataFrame) :=
  match eps with
  | [] => Ok []
  | endpoint :: eps' =>
      df <- fetch_data requests_get endpoint ;;
      dfs <- fetch_each requests_get eps' ;;
      Ok (df :: dfs)
  end.

Definition load_datasets (requests_get : network) : result (list DataFrame) :=
  fetch_each requests_get endpoints.

(** ** Typed records

    From here on a table is a list of records with the columns the code
    reads, each cell as the frame holds it.  Numeric columns hold [num];
    the growth [Date] column is taken after
    [pd.to_datetime(..., errors="coerce")], so an unparsable date is
    [None]. *)

Definition date : Type := Z.

(** A cell of the [Level] or [Side] column: a JSON value ([VInt], [VFloat],
    [VStr], [VNone]) or what pandas stores in its place ([VNA] for an empty
    string, [VNaN] for a null of a float column).  A float cell holds an
    integral value, below the sixteen digits from which Python writes an
    exponent; levels and sides with a fractional part are outside the
    model. *)
Inductive value : Type :=
| VInt (z : Z)
| VStr (s : string)
| VNA                  (* [pd.NA] *)
| VFloat (z : Z)       (* the float of value [z] *)
| VNaN
| VNone.               (* JSON null, kept as [None] *)

(** The dtype pandas gives a column of such cells. *)
Inductive dtype : Set := int64 | float64 | object.

Definition is_text (v : value) : bool :=
  match v with
  | VStr _ | VNA => true
  | _ => false
  end.

Definition is_None (v : value) : bool :=
  match v with
  | VNone => true
  | _ => false
  end.

Definition is_int (v : value) : bool :=
  match v with
  | VInt _ => true
  | _ => false
  end.

(** [pd.DataFrame(records)] on one column of JSON values: a text makes the
    column [object], as does a column of nulls only; integers alone make it
    [int64]; numbers with a float or a null among them make it
    [float64]. *)
Definition dtype_of (column : list value) : dtype :=
  if existsb is_text column then object
  else if forallb is_None column then object
  else if forallb is_int column then int64
  else float64.

(** The cell as the frame holds it after
    [pd.DataFrame(...).replace("", pd.NA)]: in a [float64] column an integer
    is a float and a null is NaN; in an [object] column the empty string is
    [pd.NA] and the other values stay as they are. *)
Definition stored_cell (column : list value) (v : value) : value :=
  match dtype_of column with
  | int64 => v
  | float64 =>
      match v with
      | VInt z => VFloat z
      | VNone => VNaN
      | _ => v
      end
  | object =>
      match v with
      | VStr "" => VNA
      | _ => v
      end
  end.

Record UnitParameters : Type := {
  Unit_ID : value;
  Artificial_Light_Hours : num
}.

Record SunRaw : Type := {
  raw_sun_Date : string;
  raw_Hours_of_Daylight : option string   (* "HH:MM:SS", or missing *)
}.

Record SunRecord : Type := {
  sun_Date : string;
  Hours_of_Daylight : num             (* decimal hours *)
}.

Record MeasurementRecord : Type := {
  Timestamp : string;
  Depth : num;
  pH : num;
  EC : num;
  PPM : num;
  Temperature : num
}.

Record GrowthRaw : Type := {
  growth_Date : option date;
  growth_Level : value;
  growth_Side : value;
  Height_Inches : num;
  Width_Inches : num;
  Leaf_Inches : num
}.

Record HarvestRaw : Type := {
  harvest_Level : value;
  harvest_Side : value;
  Yield_Grams : num;
  Brix : num
}.

(** A growth or harvest row once its ["Plant"] column is set. *)
Record GrowthRecord : Type := {
  growth : GrowthRaw;
  growth_Plant : string
}.

Record HarvestRecord : Type := {
  harvest : HarvestRaw;
  harvest_Plant : string
}.

(** One row of a growth summary: a date and the mean of each metric. *)
Record SummaryRow : Type := {
  Date : date;
  Height : num;
  Width : num;
  Leaf : num
}.

Inductive Column : Type :=
| Height_col      (* "Height (Inches)" *)
| Width_col       (* "Width (Inches)" *)
| Leaf_col.       (* "Leaf (Inches)" *)

Definition growth_column (c : Column) (r : GrowthRecord) : num :=
  match c with
  | Height_col => Height_Inches (growth r)
  | Width_col => Width_Inches (growth r)
  | Leaf_col => Leaf_Inches (growth r)
  end.

Definition summary_column (c : Column) (r : SummaryRow) : num :=
  match c with
  | Height_col => Height r
  | Width_col => Width r
  | Leaf_col => Leaf r
  end.

(** ** Cleaner / Normalizer (lines 46-55) *)

(** [.astype(str)] on a cell of [Level] or [Side] as the frame holds it:
    the cells of an [int64] column are integers, those of a [float64] column
    floats and NaN, those of an [object] column any value, and each is
    written as Python's [str] writes it. *)
Definition astype_str (v : value) : string :=
  match v with
  | VInt z => NilZero.string_of_int (Z.to_int z)
  | VStr s => s
  | VNA => "<NA>"
  | VFloat z => NilZero.string_of_int (Z.to_int z) ++ ".0"
  | VNaN => "nan"
  | VNone => "None"
  end.

(** Line 47. *)
Definition add_growth_Plant (r : GrowthRaw) : GrowthRecord :=
  {| growth := r;
     growth_Plant := astype_str (growth_Level r) ++ "-" ++ astype_str (growth_Side r) |}.

(** Line 48. *)
Definition add_harvest_Plant (r : HarvestRaw) : HarvestRecord :=
  {| harvest := r;
     harvest_Plant := astype_str (harvest_Level r) ++ "-" ++ astype_str (harvest_Side r) |}.

(** The rows of a growth table as the frame holds them, the [Level] and
    [Side] cells stored according to their columns. *)
Definition store_growth_row (df : list GrowthRaw) (r : GrowthRaw) : GrowthRaw :=
  {| growth_Date := growth_Date r;
     growth_Level := stored_cell (map growth_Level df) (growth_Level r);
     growth_Side := stored_cell (map growth_Side df) (growth_Side r);
     Height_Inches := Height_Inches r;
     Width_Inches := Width_Inches r;
     Leaf_Inches := Leaf_Inches r |}.

Definition store_growth (df : list GrowthRaw) : list GrowthRaw :=
  map (store_growth_row df) df.

Definition store_harvest_row (df : list HarvestRaw) (r : HarvestRaw)
  : HarvestRaw :=
  {| harvest_Level := stored_cell (map harvest_Level df) (harvest_Level r);
     harvest_Side := stored_cell (map harvest_Side df) (harvest_Side r);
     Yield_Grams := Yield_Grams r;
     Brix := Brix r |}.

Definition store_harvest (df : list HarvestRaw) : list HarvestRaw :=
  map (store_harvest_row df) df.

Definition digit_of_ascii (c : ascii) : option nat :=
  let n := nat_of_ascii c in
  if ((48 <=? n) && (n <=? 57))%nat then Some (n - 48)%nat else None.

Definition two_digits (a b : ascii) : option nat :=
  match digit_of_ascii a, digit_of_ascii b with
  | Some x, Some y => Some (10 * x + y)%nat
  | _, _ => None
  end.

(** [pd.to_timedelta] on a clock string "HH:MM:SS", as the
    [(hours, minutes, seconds)] it reads.  Every other string, among them
    the further formats pandas reads, is outside the model, which says so
    with [Unmodelled]. *)
Definition to_timedelta (s : string) : result (nat * nat * nat) :=
  match s with
  | String h1 (String h2 (String ":" (String m1 (String m2
      (String ":" (String s1 (String s2 EmptyString))))))) =>
      match two_digits h1 h2, two_digits m1 m2, two_digits s1 s2 with
      | Some h, Some m, Some sec => Ok (h, m, sec)
      | _, _, _ => Raise Unmodelled
      end
  | _ => Raise Unmodelled
  end.

(** [.dt.total_seconds()]. *)
Definition total_seconds (t : nat * nat * nat) : Q :=
  let '(h, m, sec) := t in
  inject_Z (Z.of_nat (3600 * h + 60 * m + sec)).

(** Line 52 on one value:
    [pd.to_timedelta(x).total_seconds() / 3600]. *)
Definition hours_of_daylight (s : string) : result Q :=
  t <- to_timedelta s ;;
  Ok (total_seconds t / 3600).

(** A missing duration is [NaT], whose [total_seconds()] is NaN. *)
Definition convert_duration (x : option string) : result num :=
  match x with
  | None => Ok NaN
  | Some s => h <- hours_of_daylight s ;; Ok (Some h)
  end.

Fixpoint convert_sun_data (df : list SunRaw) : result (list SunRecord) :=
  match df with
  | [] => Ok []
  | r :: df' =>
      h <- convert_duration (raw_Hours_of_Daylight r) ;;
      rest <- convert_sun_data df' ;;
      Ok ({| sun_Date := raw_sun_Date r; Hours_of_Daylight := h |} :: rest)
  end.

Definition notna (x : num) : bool :=
  match x with
  | Some _ => true
  | None => false
  end.

(** The test [dropna(subset=["Depth", "pH", "EC", "PPM", "Temperature"])]
    applies to a row. *)
Definition complete (r : MeasurementRecord) : bool :=
  notna (Depth r) && notna (pH r) && notna (EC r) && notna (PPM r)
  && notna (Temperature r).

(** Line 55: [dropna] returns a new frame. *)
Definition dropna_measurements (df : list MeasurementRecord)
  : list MeasurementRecord :=
  filter complete df.

(** ** Aggregator (lines 58-60 and 942-943)

    [df.groupby("Date")[columns].mean().reset_index()]: rows without a date
    are left out, the groups come out by ascending date, and a group keeps
    its rows in frame order. *)

Definition groups : Type := list (date * list GrowthRecord).

Fixpoint add_to_group (d : date) (r : GrowthRecord) (gs : groups) : groups :=
  match gs with
  | [] => [(d, [r])]
  | (k, rs) :: gs' =>
      if (d <? k)%Z then (d, [r]) :: gs
      else if (d =? k)%Z then (k, (rs ++ [r])%list) :: gs'
      else (k, rs) :: add_to_group d r gs'
  end.

Definition add_row (gs : groups) (r : GrowthRecord) : groups :=
  match growth_Date (growth r) with
  | Some d => add_to_group d r gs
  | None => gs
  end.

Definition groupby_Date (df : list GrowthRecord) : groups :=
  fold_left add_row df [].

Definition group_mean (g : date * list GrowthRecord) : SummaryRow :=
  {| Date := fst g;
     Height := mean (map (growth_column Height_col) (snd g));
     Width := mean (map (growth_column Width_col) (snd g));
     Leaf := mean (map (growth_column Leaf_col) (snd g)) |}.

Definition groupby_Date_mean (df : list GrowthRecord) : list SummaryRow :=
  map group_mean (groupby_Date df).

(** Line 942: [plant_growth[plant_growth["Plant"] == selected_plant]]. *)
Definition select_plant (selected_plant : string) (df : list GrowthRecord)
  : list GrowthRecord :=
  filter (fun r => (growth_Plant r =? selected_plant)%string) df.

(** ** Projector ([extend_growth_data], lines 279-290) *)

(** The random source: [np_random_uniform i low high] is what the [i]-th
    call [np.random.uniform(low, high)] returns. *)
Definition rng : Type := nat -> Q -> Q -> Q.

(** [.iloc[-1]]. *)
Fixpoint iloc_last {A : Type} (l : list A) : result A :=
  match l with
  | [] => Raise IndexError
  | [x] => Ok x
  | _ :: l' => iloc_last l'
  end.

(** [df["Date"].max()]; [NaT] on an empty column. *)
Fixpoint Date_max (df : list SummaryRow) : option date :=
  match df with
  | [] => None
  | r :: df' =>
      match Date_max df' with
      | None => Some (Date r)
      | Some m => Some (Z.max (Date r) m)
      end
  end.

(** [pd.date_range(start, periods=n)], daily. *)
Definition date_range (start : date) (periods : nat) : list date :=
  map (fun i => (start + Z.of_nat i)%Z) (seq 0 periods).

(** The loop of lines 285-288; [i] counts the draws made so far. *)
Fixpoint projections (np_random_uniform : rng) (i : nat) (days : nat)
  (last_value : num) (growth_rate noise_factor : Q) : list num :=
  match days with
  | O => []
  | S days' =>
      let fluctuation := np_random_uniform i (- noise_factor) noise_factor in
      let last_value := mul last_value (Some (growth_rate + fluctuation)) in
      last_value :: projections np_random_uniform (S i) days' last_value
                      growth_rate noise_factor
  end.

Definition extend_growth_data (np_random_uniform : rng) (df : list SummaryRow)
  (column : Column) (days : nat) (growth_rate noise_factor : Q)
  : result (list (date * num)) :=
  last_value <- iloc_last (map (summary_column column) df) ;;
  match Date_max df with
  | None => Raise ValueError
  | Some m =>
      let future_dates := date_range (m + 1)%Z days in
      Ok (combine future_dates
            (projections np_random_uniform 0 days last_value growth_rate
               noise_factor))
  end.

(** The defaults of the signature. *)
Definition default_days : nat := 10.
Definition default_growth_rate : Q := 1.02.
Definition default_noise_factor : Q := 0.03.

(** ** Module state

    The tables bound at module level once lines 41-60 have run, which the
    functions below read as globals. *)

Record Globals : Type := {
  unit_parameters : list UnitParameters;
  sun_data : list SunRecord;
  unit_measurements : list MeasurementRecord;
  plant_growth : list GrowthRecord;
  plant_harvest : list HarvestRecord;
  unit_measurements_chart : list MeasurementRecord;
  plant_growth_summary : list SummaryRow
}.

(** The five tables as loaded, before any cleaning. *)
Record Loaded : Type := {
  loaded_unit_parameters : list UnitParameters;
  loaded_sun_data : list SunRaw;
  loaded_unit_measurements : list MeasurementRecord;
  loaded_plant_growth : list GrowthRaw;
  loaded_plant_harvest : list HarvestRaw
}.

(** Selecting columns by name in a loaded table.  A table loaded from no
    record has no column (as [fetch_data] builds it), so the selection
    raises; a table with a record has the columns of its record type. *)
Definition columns_of {A : Type} (df : list A) : result (list A) :=
  match df with
  | [] => Raise KeyError
  | _ :: _ => Ok df
  end.

(** Lines 46-60 and 88, in order.  Line 51 guards the conversion of the
    sun data by the presence of the column: on a table without rows nothing
    is converted. *)
Definition prepare (l : Loaded) : result Globals :=
  plant_growth <- columns_of (loaded_plant_growth l) ;;
  let plant_growth := map add_growth_Plant plant_growth in
  plant_harvest <- columns_of (loaded_plant_harvest l) ;;
  let plant_harvest := map add_harvest_Plant plant_harvest in
  sun_data <- convert_sun_data (loaded_sun_data l) ;;
  unit_measurements <- columns_of (loaded_unit_measurements l) ;;
  let unit_measurements_chart := dropna_measurements unit_measurements in
  let plant_growth_summary := groupby_Date_mean plant_growth in
  _ <- columns_of (loaded_unit_parameters l) ;;
  Ok {| unit_parameters := loaded_unit_parameters l;
        sun_data := sun_data;
        unit_measurements := unit_measurements;
        plant_growth := plant_growth;
        plant_harvest := plant_harvest;
        unit_measurements_chart := unit_measurements_chart;
        plant_growth_summary := plant_growth_summary |}.

(** The frame [update_growth_and_layout] charts for a selection
    (lines 933-943). *)
Definition selected_growth (G : Globals) (selected_plant : string)
  : list SummaryRow :=
  if (selected_plant =? "all")%string
  then plant_growth_summary G
  else groupby_Date_mean (select_plant selected_plant (plant_growth G)).

(** ** Threshold Evaluator (lines 382-485) *)

Record AlertCard : Type := {
  icon : string;
  title : string;
  message_top : string;
  message_bottom : string;
  color : string
}.

Definition get_alert_card (icon title message_top message_bottom color : string)
  : AlertCard :=
  {| icon := icon; title := title; message_top := message_top;
     message_bottom := message_bottom; color := color |}.

Section Evaluator.

(** Python's float formatting, [f"{x:.1f}"] and [f"{x:.2f}"]. *)
Variable format_1f : num -> string.
Variable format_2f : num -> string.

(** The body of [get_yield_insight] after line 412. *)
Definition yield_card (avg_yield : num) : AlertCard :=
  if lt avg_yield (Some 30) then
    get_alert_card "mdi:barley" "Yield: Critical"
      ("Yield is well below the optimal 50g+ range. Current: "
         ++ format_1f avg_yield ++ "g.")
      "Improve nutrient delivery, verify EC and pH levels, and increase lighting exposure."
      "#dc3545"
  else if lt avg_yield (Some 50) then
    get_alert_card "mdi:barley" "Yield: Warning"
      ("Yield is slightly under the expected threshold of 50g+. Current: "
         ++ format_1f avg_yield ++ "g.")
      "Consider adjusting nutrients, lighting duration, and irrigation strategy."
      "#e0a800"
  else
    get_alert_card "mdi:barley" "Yield: Normal"
      ("Yield is within the optimal range (50g+). Current: "
         ++ format_1f avg_yield ++ "g.")
      "Maintain your current growing conditions and keep monitoring regularly."
      "#28a745".

Definition get_yield_insight (G : Globals) : result AlertCard :=
  df <- columns_of (plant_harvest G) ;;
  let avg_yield := mean (map (fun r => Yield_Grams (harvest r)) df) in
  Ok (yield_card avg_yield).

(** The body of [get_ph_insight] after line 429. *)
Definition ph_card (avg_ph : num) : AlertCard :=
  if lt avg_ph (Some 5.2) then
    get_alert_card "mdi:scale-balance" "pH: Critical"
      ("pH is too acidic. Optimal range: 5.5–6.5. Current: "
         ++ format_2f avg_ph ++ ".")
      "Apply a base solution to raise pH and prevent root damage."
      "#dc3545"
  else if gt avg_ph (Some 6.8) then
    get_alert_card "mdi:scale-balance" "pH: Critical"
      ("pH is too alkaline. Optimal range: 5.5–6.5. Current: "
         ++ format_2f avg_ph ++ ".")
      "Use a mild acid like phosphoric acid to bring the pH down gradually."
      "#dc3545"
  else if lt avg_ph (Some 5.5) || gt avg_ph (Some 6.5) then
    get_alert_card "mdi:scale-balance" "pH: Warning"
      ("pH is slightly outside the target range of 5.5–6.5. Current: "
         ++ format_2f avg_ph ++ ".")
      "Stabilize with pH adjusters and monitor levels over the next few days."
      "#e0a800"
  else
    get_alert_card "mdi:scale-balance" "pH: Normal"
      ("pH is in the ideal range (5.5–6.5). Current: "
         ++ format_2f avg_ph ++ ".")
      "No adjustments needed—continue current monitoring routine."
      "#28a745".

Definition get_ph_insight (G : Globals) : result AlertCard :=
  df <- columns_of (unit_measurements G) ;;
  let avg_ph := mean (map pH df) in
  Ok (ph_card avg_ph).

(** The body of [get_ec_insight] after line 451. *)
Definition ec_card (avg_ec : num) : AlertCard :=
  if lt avg_ec (Some 0.7) then
    get_alert_card "mdi:water-percent" "EC: Critical"
      ("Electrical conductivity is far below the optimal range (1.0–2.0 S/m). Current: "
         ++ format_2f avg_ec ++ ".")
      "Add more nutrients to enrich the solution and support plant growth."
      "#dc3545"
  else if gt avg_ec (Some 2.5) then
    get_alert_card "mdi:water-percent" "EC: Critical"
      ("Electrical conductivity is too high. Target range is 1.0–2.0 S/m. Current: "
         ++ format_2f avg_ec ++ ".")
      "Dilute with fresh water or flush the system to reduce salt buildup."
      "#dc3545"
  else if lt avg_ec (Some 1.0) || gt avg_ec (Some 2.0) then
    get_alert_card "mdi:water-percent" "EC: Warning"
      ("EC is slightly outside the optimal range (1.0–2.0 S/m). Current: "
         ++ format_2f avg_ec ++ ".")
      "Fine-tune the nutrient mix and recheck levels after the next feeding."
      "#e0a800"
  else
    get_alert_card "mdi:water-percent" "EC: Normal"
      ("Electrical conductivity is stable and within the 1.0–2.0 S/m range. Current: "
         ++ format_2f avg_ec ++ ".")
      "Maintain consistent feeding schedule and check weekly."
      "#28a745".

(** Line 451: the value is a literal, no table is read. *)
Definition get_ec_insight (G : Globals) : AlertCard :=
  let avg_ec := Some 3.33 in
  ec_card avg_ec.

(** Line 474:
    [float(unit_parameters.get("Artificial Light (Hours)", pd.Series([0])).iloc[0])].
    A frame without rows has no column and [get] answers the default series;
    the cell of a numeric column is a number or NaN, and [float] returns it
    as it is. *)
Definition artificial_light (params : list UnitParameters) : result num :=
  match params with
  | [] => Ok (Some 0)
  | r :: _ => Ok (Artificial_Light_Hours r)
  end.

(** Line 475. *)
Definition total_light (avg_natural : num) (artificial : num) : num :=
  py_min (add avg_natural artificial) (Some 24).

(** The body of [get_light_insight] after line 475. *)
Definition light_card (total_light : num) : AlertCard :=
  if lt total_light (Some 6) then
    get_alert_card "mdi:white-balance-sunny" "Light: Critical"
      ("Total light exposure is too low. Minimum required: 6 hours/day. Current: "
         ++ format_1f total_light ++ " hrs.")
      "Increase artificial lighting or reposition plants for more sun."
      "#dc3545"
  else
    get_alert_card "mdi:white-balance-sunny" "Light: Normal"
      ("Total light exposure exceeds the 6-hour minimum. Current: "
         ++ format_1f total_light ++ " hrs.")
      "Light availability is sufficient—no changes needed at this time."
      "#28a745".

Definition get_light_insight (G : Globals) : result AlertCard :=
  df <- columns_of (sun_data G) ;;
  let avg_natural := mean (map Hours_of_Daylight df) in
  artificial <- artificial_light (unit_parameters G) ;;
  Ok (light_card (total_light avg_natural artificial)).

End Evaluator.

(** The severity a card shows, read off its colour. *)
Inductive severity : Set := Critical | Warning | Normal.

Definition severity_of (c : AlertCard) : option severity :=
  if (color c =? "#dc3545")%string then Some Critical
  else if (color c =? "#e0a800")%string then Some Warning
  else if (color c =? "#28a745")%string then Some Normal
  else None.

(** ** Vocabulary of the statements *)

Definition url (endpoint : string) : string := API_BASE_URL ++ endpoint.

Definition ascii_of_digit (d : nat) : ascii := ascii_of_nat (48 + d).

(** The clock string whose six digits are given, "h1h2:m1m2:s1s2". *)
Definition clock (h1 h2 m1 m2 s1 s2 : nat) : string :=
  String (ascii_of_digit h1) (String (ascii_of_digit h2) (String ":"
    (String (ascii_of_digit m1) (String (ascii_of_digit m2) (String ":"
      (String (ascii_of_digit s1) (String (ascii_of_digit s2) EmptyString))))))).

(** The row carries the date [d]. *)
Definition on_date (d : date) (r : GrowthRecord) : bool :=
  match growth_Date (growth r) with
  | Some d' => (d' =? d)%Z
  | None => false
  end.

Definition keys (gs : groups) : list date := map fst gs.

(** What [groupby_Date] keeps true row after row. *)
Definition grouped (df : list GrowthRecord) (gs : groups) : Prop :=
  StronglySorted Z.lt (keys gs)
  /\ (forall k rs, In (k, rs) gs -> rs = filter (on_date k) df)
  /\ (forall k, In k (keys gs) <->
                exists r, In r df /\ growth_Date (growth r) = Some k).

Fixpoint pow (x : Q) (k : nat) : Q :=
  match k with
  | O => 1
  | S k' => x * pow x k'
  end.

(** ** Sample data *)

Definition no_format : num -> string := fun _ => "".

Definition sample_measurements : list MeasurementRecord :=
  [ {| Timestamp := "2025-03-01 08:00"; Depth := Some 4.1; pH := Some 6.1;
       EC := Some 1.4; PPM := Some 700; Temperature := Some 21.5 |};
    {| Timestamp := "2025-03-01 09:00"; Depth := Some 4.0; pH := Some 6.3;
       EC := None; PPM := Some 705; Temperature := Some 21.7 |} ].

Definition sample_growth : list GrowthRaw :=
  [ {| growth_Date := Some 20148%Z; growth_Level := VInt 1; growth_Side := VStr "A";
       Height_Inches := Some 3.0; Width_Inches := Some 2.0; Leaf_Inches := Some 1.5 |};
    {| growth_Date := Some 20147%Z; growth_Level := VInt 1; growth_Side := VStr "A";
       Height_Inches := Some 2.5; Width_Inches := Some 1.8; Leaf_Inches := Some 1.2 |};
    {| growth_Date := Some 20148%Z; growth_Level := VInt 2; growth_Side := VStr "B";
       Height_Inches := Some 4.0; Width_Inches := None; Leaf_Inches := Some 2.5 |} ].


Definition sample_harvest : list HarvestRaw :=
  [ {| harvest_Level := VInt 1; harvest_Side := VStr "A";
       Yield_Grams := Some 45.2; Brix := Some 7 |} ].

Definition sample_loaded : Loaded :=
  {| loaded_unit_parameters :=
       [ {| Unit_ID := VStr "ATLAS-1"; Artificial_Light_Hours := Some 8 |} ];
     loaded_sun_data :=
       [ {| raw_sun_Date := "2025-03-01"; raw_Hours_of_Daylight := Some "06:30:00" |};
         {| raw_sun_Date := "2025-03-02"; raw_Hours_of_Daylight := Some "11:45:30" |} ];
     loaded_unit_measurements := sample_measurements;
     loaded_plant_growth := sample_growth;
     loaded_plant_harvest := sample_harvest |}.

Definition sample_summary : list SummaryRow :=
  groupby_Date_mean (map add_growth_Plant sample_growth).

Definition sample_globals : Globals :=
  {| unit_parameters := loaded_unit_parameters sample_loaded;
     sun_data :=
       [ {| sun_Date := "2025-03-01";
            Hours_of_Daylight := Some (total_seconds (6, 30, 0)%nat / 3600) |};
         {| sun_Date := "2025-03-02";
            Hours_of_Daylight := Some (total_seconds (11, 45, 30)%nat / 3600) |} ];
     unit_measurements := sample_measurements;
     plant_growth := map add_growth_Plant sample_growth;
     plant_harvest := map add_harvest_Plant sample_harvest;
     unit_measurements_chart := dropna_measurements sample_measurements;
     plant_growth_summary := sample_summary |}.

Definition sample_avg_natural : Q :=
  Eval vm_compute in
    match mean (map Hours_of_Daylight (sun_data sample_globals)) with
    | Some a => a
    | None => 0
    end.

(** A service where the sun-data endpoint answers 500 and every other
    endpoint answers 200 with one record. *)
Definition sample_network : network := fun u =>
  if (u =? url "sun-data")%string
  then Ok {| status_code := 500; json := [] |}
  else Ok {| status_code := 200; json := [[("Level", Number 1); ("Side", Text "")]] |}.

(** The same service with the sun-data endpoint in order. *)
Definition sample_network_up : network := fun u =>
  if (u =? url "sun-data")%string
  then Ok {| status_code := 200;
             json := [[("Date", Text "2025-03-01");
                       ("Hours of Daylight", Text "06:30:00")]] |}
  else sample_network u.

(** A random source that answers [low] on its first call and [high] after. *)
Definition sample_rng : rng := fun i low high =>
  match i with
  | O => low
  | S _ => high
  end.

Definition sample_last : SummaryRow :=
  Eval vm_compute in
    match iloc_last sample_summary with
    | inr r => r
    | inl _ => {| Date := 0%Z; Height := NaN; Width := NaN; Leaf := NaN |}
    end.

Definition sample_last_height : Q :=
  Eval vm_compute in
    match Height sample_last with
    | Some v => v
    | None => 0
    end.

(** A one-row summary with height 1. *)
Definition unit_series : list SummaryRow :=
  [ {| Date := 20148%Z; Height := Some 1; Width := NaN; Leaf := NaN |} ].

(** ** Leaf-size and Brix evaluators (lines 487-519) *)

(** The double-quote character, escaped in the source messages. *)
Definition double_quote : string := String (ascii_of_nat 34) EmptyString.

Section MoreEvaluators.

Variable format_1f : num -> string.

(** The body of [get_leaf_size_insight] after line 488. *)
Definition leaf_card (avg_leaf_size : num) : AlertCard :=
  if lt avg_leaf_size (Some 2.0) then
    get_alert_card "mdi:leaf" "Leaf Size: Critical"
      ("Leaf size is far below the optimal threshold (3+ inches). Current: "
         ++ format_1f avg_leaf_size ++ double_quote ++ ".")
      "Apply micronutrients and improve airflow and humidity control."
      "#dc3545"
  else if lt avg_leaf_size (Some 3.0) then
    get_alert_card "mdi:leaf" "Leaf Size: Warning"
      ("Leaf size is slightly under the 3-inch target. Current: "
         ++ format_1f avg_leaf_size ++ double_quote ++ ".")
      "Review nutrient balance and increase light intensity if needed."
      "#e0a800"
  else
    get_alert_card "mdi:leaf" "Leaf Size: Normal"
      ("Average leaf size meets the optimal 3-inch threshold. Current: "
         ++ format_1f avg_leaf_size ++ double_quote ++ ".")
      "Continue current growth strategy and monitor leaf expansion."
      "#28a745".

Definition get_leaf_size_insight (G : Globals) : result AlertCard :=
  df <- columns_of (plant_growth G) ;;
  let avg_leaf_size := mean (map (fun r => Leaf_Inches (growth r)) df) in
  Ok (leaf_card avg_leaf_size).

(** The body of [get_brix_insight] after line 505. *)
Definition brix_card (avg_brix : num) : AlertCard :=
  if lt avg_brix (Some 6) then
    get_alert_card "mdi:fruit-grapes" "Brix Score: Critical"
      ("Brix value is below ideal levels. Goal is 8+ for high-quality produce. Current: "
         ++ format_1f avg_brix ++ ".")
      "Increase potassium uptake and optimize ripening conditions."
      "#dc3545"
  else if lt avg_brix (Some 8) then
    get_alert_card "mdi:fruit-grapes" "Brix Score: Warning"
      ("Brix score is approaching optimal but not quite there. Current: "
         ++ format_1f avg_brix ++ ".")
      "Improve nutrient timing and boost light exposure during fruit development."
      "#e0a800"
  else
    get_alert_card "mdi:fruit-grapes" "Brix Score: Normal"
      ("Brix score is at or above target levels (8+). Current: "
         ++ format_1f avg_brix ++ ".")
      "Maintain your current practices to preserve sweetness and quality."
      "#28a745".

Definition get_brix_insight (G : Globals) : result AlertCard :=
  df <- columns_of (plant_harvest G) ;;
  let avg_brix := mean (map (fun r => Brix (harvest r)) df) in
  Ok (brix_card avg_brix).

End MoreEvaluators.

(** ** Chart data (lines 110-198 and 298-322)

    Of a figure the model keeps the traces, each the list of its x values
    and the list of its y values, and the tick values where the code sets
    them; titles, colours and layout are left out. *)

Record Trace (X : Type) : Type := {
  trace_x : list X;
  trace_y : list num
}.

Arguments trace_x {X} _.
Arguments trace_y {X} _.

(** [px.line(df, x=x_col, y=y_col)]. *)
Definition px_line {A X : Type} (df : list A) (x_col : A -> X)
  (y_col : A -> num) : Trace X :=
  {| trace_x := map x_col df; trace_y := map y_col df |}.

(** [create_chart]: the line, then with [show_avg] the "Average" trace,
    [[avg_value] * len(df)] over the same x values. *)
Definition create_chart {A X : Type} (df : list A) (x_col : A -> X)
  (y_col : A -> num) (show_avg : bool) : list (Trace X) :=
  let fig := [px_line df x_col y_col] in
  if show_avg then
    let avg_value := mean (map y_col df) in
    (fig ++ [ {| trace_x := map x_col df;
                 trace_y := repeat avg_value (List.length df) |} ])%list
  else fig.

(** Every [step]-th element, the first one after [skip] elements. *)
Fixpoint take_every {A : Type} (step skip : nat) (l : list A) : list A :=
  match l with
  | [] => []
  | x :: l' =>
      match skip with
      | O => x :: take_every step (step - 1) l'
      | S skip' => take_every step skip' l'
      end
  end.

(** The slice [s[::step]]; a step of zero raises. *)
Definition slice_step {A : Type} (l : list A) (step : nat) : result (list A) :=
  match step with
  | O => Raise ValueError
  | S _ => Ok (take_every step 0 l)
  end.

Record SunlightFigure : Type := {
  sunlight_traces : list (Trace string);
  tickvals : list string
}.

(** [create_sunlight_chart] on the sun data.  [px.line] raises on a frame
    that lacks the columns it is given, which is the frame without rows. *)
Definition create_sunlight_chart (df : list SunRecord)
  : result SunlightFigure :=
  match df with
  | [] => Raise ValueError
  | _ :: _ =>
      let fig := px_line df sun_Date Hours_of_Daylight in
      let avg_value := mean (map Hours_of_Daylight df) in
      let average := {| trace_x := map sun_Date df;
                        trace_y := repeat avg_value (List.length df) |} in
      ticks <- slice_step (map sun_Date df) (List.length df / 5) ;;
      Ok {| sunlight_traces := [fig; average]; tickvals := ticks |}
  end.

Definition Column_eqb (a b : Column) : bool :=
  match a, b with
  | Height_col, Height_col | Width_col, Width_col | Leaf_col, Leaf_col => true
  | _, _ => false
  end.

(** [df_actual.tail(1)], as the one-row frame with the columns of
    [df_actual]. *)
Fixpoint tail_1 {A : Type} (l : list A) : list A :=
  match l with
  | [] => []
  | [x] => [x]
  | _ :: l' => tail_1 l'
  end.

(** [create_projection_chart].  [df_proj] has the columns "Date" and
    [proj_col]; after [pd.concat] its rows have a value in [y_col] only when
    [y_col] is that column. *)
Definition create_projection_chart (df_actual : list SummaryRow)
  (df_proj : list (date * num)) (proj_col : Column) (y_col : Column)
  : list (Trace date) :=
  let df_proj :=
    (map (fun r => (Date r, summary_column y_col r)) (tail_1 df_actual)
     ++ map (fun p => (fst p, if Column_eqb proj_col y_col then snd p else NaN))
          df_proj)%list in
  [ px_line df_actual Date (summary_column y_col);
    {| trace_x := map fst df_proj; trace_y := map snd df_proj |} ].

(** The columns charted from the measurements (lines 135-158). *)
Inductive MeasurementColumn : Type :=
| Depth_col | pH_col | EC_col | PPM_col | Temperature_col.

Definition measurement_column (c : MeasurementColumn) (r : MeasurementRecord)
  : num :=
  match c with
  | Depth_col => Depth r
  | pH_col => pH r
  | EC_col => EC r
  | PPM_col => PPM r
  | Temperature_col => Temperature r
  end.

(** The charts of lines 135-158: [create_chart] on the charting view. *)
Definition measurement_chart (G : Globals) (c : MeasurementColumn)
  : list (Trace string) :=
  create_chart (unit_measurements_chart G) Timestamp (measurement_column c) true.

(** ** Plant selector (lines 738-742 and 1063-1073) *)

Fixpoint insert_sorted (x : string) (l : list string) : list string :=
  match l with
  | [] => [x]
  | y :: l' => if (x <=? y)%string then x :: l else y :: insert_sorted x l'
  end.

(** [sorted(...)] on strings, which Python orders by code point. *)
Definition sorted (l : list string) : list string :=
  fold_right insert_sorted [] l.

(** The [options] of the dropdown, as (label, value) pairs. *)
Definition plant_selector_options (G : Globals) : list (string * string) :=
  ("All Plants", "all")
  :: map (fun plant => (plant, plant))
       (sorted (unique (map growth_Plant (plant_growth G)))).

(** What a callback does to its output. *)
Inductive callback (A : Type) : Type :=
| Update (a : A)
| PreventUpdate.      (* [raise dash.exceptions.PreventUpdate] *)

Arguments Update {A} a.
Arguments PreventUpdate {A}.

Definition reset_dropdown_on_tab_change (active_tab current_value : string)
  : callback string :=
  if negb (active_tab =? "plant-growth-harvest")%string
     && negb (current_value =? "all")%string
  then Update "all"
  else PreventUpdate.

(** ** Vocabulary of the further statements *)

(** No cell of the record is the empty string. *)
Definition no_empty_string (record : json_record) : Prop :=
  forall key, ~ In (key, Text "") record.

(** [a <= b] in the order of [sorted]. *)
Definition leb_prop (a b : string) : Prop := (a <=? b)%string = true.


(** The duration is missing or a clock string of six digits. *)
Definition clock_or_missing (x : option string) : Prop :=
  x = None
  \/ exists h1 h2 m1 m2 s1 s2 : nat,
       (h1 < 10)%nat /\ (h2 < 10)%nat /\ (m1 < 10)%nat /\ (m2 < 10)%nat
       /\ (s1 < 10)%nat /\ (s2 < 10)%nat
       /\ x = Some (clock h1 h2 m1 m2 s1 s2).


(** The string has the character. *)
Fixpoint has_char (c : ascii) (s : string) : bool :=
  match s with
  | EmptyString => false
  | String a s' => (a =? c)%char || has_char c s'
  end.

Definition hyphen : ascii := ascii_of_nat 45.

(** ** Further sample data *)

Definition sample_sun_week : list SunRecord :=
  map (fun d => {| sun_Date := d; Hours_of_Daylight := Some 11 |})
    ["03-01"; "03-02"; "03-03"; "03-04"; "03-05"; "03-06"; "03-07"].


(** Records that do not have the same keys, and a service that answers
    with them. *)
Definition sample_records_mixed : list json_record :=
  [ [("Level", Number 1); ("Side", Text "")];
    [("Level", Number 2); ("Date", Text "2025-03-01")] ].

Definition sample_network_mixed : network := fun _ =>
  Ok {| status_code := 200; json := sample_records_mixed |}.

(** A service whose unit-measurements endpoint cannot be reached. *)
Definition sample_network_down : network := fun u =>
  if (u =? url "unit-measurements")%string
  then Raise ConnectionError
  else sample_network u.

(** * Properties *)

(** ** Facts about numbers *)

Lemma Qltb_lt (x y : Q) : Qltb x y = true <-> x < y.
Proof.
  unfold Qltb. rewrite negb_true_iff. split; intro H.
  - apply Qnot_le_lt. intro Hle. apply Qle_bool_iff in Hle. congruence.
  - destruct (Qle_bool y x) eqn:E; [|reflexivity].
    apply Qle_bool_iff in E. exfalso. exact (Qlt_not_le _ _ H E).
Qed.

Lemma Qltb_ge (x y : Q) : Qltb x y = false <-> y <= x.
Proof.
  unfold Qltb. rewrite negb_false_iff. apply Qle_bool_iff.
Qed.

Lemma lt_NaN_l (b : num) : lt NaN b = false.
Proof. reflexivity. Qed.

Lemma lt_NaN_r (a : num) : lt a NaN = false.
Proof. destruct a; reflexivity. Qed.

Lemma present_map_Some (l : list Q) : present (map Some l) = l.
Proof. induction l as [|x l IH]; simpl; [reflexivity | now rewrite IH]. Qed.

(** On a column without missing values [mean] is the sum over the count. *)
Lemma mean_all_present (x : Q) (l : list Q) :
  mean (map Some (x :: l))
  = Some (Qsum (x :: l) / inject_Z (Z.of_nat (List.length (x :: l)))).
Proof. unfold mean. rewrite present_map_Some. reflexivity. Qed.

Lemma mean_nil : mean [] = NaN.
Proof. reflexivity. Qed.

Lemma In_unique (x : string) (l : list string) : In x (unique l) <-> In x l.
Proof.
  induction l as [|y l IH]; cbn [unique In]; [tauto|].
  rewrite filter_In, IH, negb_true_iff, String.eqb_neq.
  destruct (string_dec y x) as [-> | Hne]; intuition.
Qed.

(** Decide every comparison of the goal, turning it into an order fact. *)
Ltac compare_all :=
  repeat match goal with
    | |- context [Qltb ?x ?y] =>
        let E := fresh "E" in
        destruct (Qltb x y) eqn:E;
        [apply Qltb_lt in E | apply Qltb_ge in E]
    end.

Ltac band :=
  cbn [title color get_alert_card orb];
  repeat split; intros; try discriminate; try reflexivity; try lra.

(** ** Data Loader *)

Lemma fetch_data_non_success (requests_get : network) (endpoint : string)
  (resp : response) :
  requests_get (url endpoint) = Ok resp ->
  status_code resp <> 200%Z ->
  fetch_data requests_get endpoint = Ok [].
Proof.
  intros Hget Hstatus. unfold fetch_data. fold (url endpoint).
  rewrite Hget. cbn [bind Ok].
  destruct (Z.eqb_spec (status_code resp) 200); [contradiction | reflexivity].
Qed.

Lemma fetch_data_success (requests_get : network) (endpoint : string)
  (resp : response) :
  requests_get (url endpoint) = Ok resp ->
  status_code resp = 200%Z ->
  fetch_data requests_get endpoint
  = Ok (replace_empty_frame (DataFrame_of_records (json resp))).
Proof.
  intros Hget Hstatus. unfold fetch_data. fold (url endpoint).
  rewrite Hget. cbn [bind Ok]. rewrite Hstatus. reflexivity.
Qed.

(** An exception of [requests.get] is the exception of [fetch_data]. *)
Lemma fetch_data_raises (requests_get : network) (endpoint : string) (e : exn) :
  requests_get (url endpoint) = Raise e ->
  fetch_data requests_get endpoint = Raise e.
Proof.
  intros Hget. unfold fetch_data. fold (url endpoint). now rewrite Hget.
Qed.

(** [fetch_data] looks at the answer to its own request only. *)
Lemma fetch_data_local (net net' : network) (endpoint : string) :
  net' (url endpoint) = net (url endpoint) ->
  fetch_data net' endpoint = fetch_data net endpoint.
Proof.
  intros H. unfold fetch_data. fold (url endpoint). now rewrite H.
Qed.

Lemma fetch_each_isolated (net net' : network) (failed : string)
  (resp : response) (eps : list string) :
  net (url failed) = Ok resp ->
  status_code resp <> 200%Z ->
  (forall e, In e eps -> e <> failed -> net' (url e) = net (url e)) ->
  forall dfs', fetch_each net' eps = Ok dfs' ->
  exists dfs,
    fetch_each net eps = Ok dfs
    /\ forall i e, nth_error eps i = Some e ->
         (e <> failed -> nth_error dfs i = nth_error dfs' i)
         /\ (e = failed -> nth_error dfs i = Some []).
Proof.
  intros Hget Hstatus. induction eps as [|e0 eps IH]; intros Hsame dfs' Hload.
  - exists []. split; [reflexivity|]. intros [|i] e He; discriminate He.
  - cbn [fetch_each] in Hload |- *.
    destruct (fetch_data net' e0) as [x|df'] eqn:Hdf'; [discriminate Hload|].
    cbn [bind] in Hload.
    destruct (fetch_each net' eps) as [x|rest'] eqn:Hrest'; [discriminate Hload|].
    cbn [bind Ok] in Hload. injection Hload as <-.
    destruct (IH (fun e He => Hsame e (or_intror He)) rest' eq_refl)
      as [rest [Hrest Hnth]].
    destruct (string_dec e0 failed) as [-> | Hne].
    + rewrite (fetch_data_non_success net failed resp Hget Hstatus).
      cbn [bind Ok]. rewrite Hrest. cbn [bind Ok].
      exists ([] :: rest). split; [reflexivity|].
      intros [|i] e He; cbn [nth_error] in *.
      * injection He as <-. split; [congruence | reflexivity].
      * now apply Hnth.
    + rewrite <- (fetch_data_local net net' e0 (Hsame e0 (or_introl eq_refl) Hne)).
      rewrite Hdf'. cbn [bind Ok]. rewrite Hrest. cbn [bind Ok].
      exists (df' :: rest). split; [reflexivity|].
      intros [|i] e He; cbn [nth_error] in *.
      * injection He as <-. split; [reflexivity | congruence].
      * now apply Hnth.
Qed.

(** C5, as the code has it.  When the service answers the request of one
    dataset with a status other than 200, [fetch_data] raises nothing and
    returns the empty table for it; and whenever the five tables load with
    that dataset answered otherwise, they load with the failure too, every
    other table being the same. *)
Theorem non_success_loads_empty_table (requests_get : network)
  (failed : string) (resp : response) :
  requests_get (url failed) = Ok resp ->
  status_code resp <> 200%Z ->
  fetch_data requests_get failed = Ok []
  /\ forall (net' : network) (dfs' : list DataFrame),
       (forall e, In e endpoints -> e <> failed ->
                  net' (url e) = requests_get (url e)) ->
       load_datasets net' = Ok dfs' ->
       exists dfs,
         load_datasets requests_get = Ok dfs
         /\ forall i e, nth_error endpoints i = Some e ->
              (e <> failed -> nth_error dfs i = nth_error dfs' i)
              /\ (e = failed -> nth_error dfs i = Some []).
Proof.
  intros Hget Hstatus. split.
  - exact (fetch_data_non_success requests_get failed resp Hget Hstatus).
  - intros net' dfs' Hsame Hload.
    exact (fetch_each_isolated requests_get net' failed resp endpoints
             Hget Hstatus Hsame dfs' Hload).
Qed.

Lemma non_success_loads_empty_table_witness :
  fetch_data sample_network "sun-data" = Ok []
  /\ exists dfs' dfs,
       load_datasets sample_network_up = Ok dfs'
       /\ load_datasets sample_network = Ok dfs
       /\ forall i e, nth_error endpoints i = Some e ->
            (e <> "sun-data" -> nth_error dfs i = nth_error dfs' i)
            /\ (e = "sun-data" -> nth_error dfs i = Some []).
Proof.
  destruct (non_success_loads_empty_table sample_network "sun-data"
              {| status_code := 500; json := [] |}) as [Hempty Hothers].
  - reflexivity.
  - cbn. lia.
  - split; [exact Hempty|].
    destruct (load_datasets sample_network_up) as [x|dfs'] eqn:Hup;
      [discriminate Hup|].
    exists dfs'.
    destruct (Hothers sample_network_up dfs') as [dfs [Hload Hnth]].
    + intros e [<- | [<- | [<- | [<- | [<- | []]]]]] Hne;
        try reflexivity. congruence.
    + exact Hup.
    + exists dfs. repeat split; try assumption; now apply Hnth.
Defined.

(** The sample service loads with the sun-data failure: five tables, the
    second one empty. *)
Example load_sample_network :
  load_datasets sample_network
  = Ok [ [[("Level", Number 1); ("Side", NA)]]; [];
         [[("Level", Number 1); ("Side", NA)]];
         [[("Level", Number 1); ("Side", NA)]];
         [[("Level", Number 1); ("Side", NA)]] ].
Proof. vm_compute. reflexivity. Qed.

(** C5 as stated fails: the sun-data endpoint of the sample service answers
    500, and [fetch_data] returns a table, not an error. *)
Lemma non_success_raises_nothing :
  sample_network (url "sun-data") = Ok {| status_code := 500; json := [] |}
  /\ fetch_data sample_network "sun-data" = Ok []
  /\ ~ (exists e : exn, fetch_data sample_network "sun-data" = Raise e).
Proof.
  split; [reflexivity|]. split; [reflexivity|].
  intros [e He]. discriminate He.
Qed.

(** ** Cleaner / Normalizer *)

Lemma astype_str_text (s : string) : astype_str (VStr s) = s.
Proof. reflexivity. Qed.

Example plant_1_A :
  growth_Plant (add_growth_Plant
    {| growth_Date := None; growth_Level := VInt 1; growth_Side := VStr "A";
       Height_Inches := None; Width_Inches := None; Leaf_Inches := None |})
  = "1-A".
Proof. reflexivity. Qed.













(** In the sample the two Level columns are integer columns and the slot of
    level 1 and side A has the identifier "1-A" in both tables. *)
Example sample_identifiers :
  map growth_Plant (map add_growth_Plant (store_growth sample_growth))
  = ["1-A"; "1-A"; "2-B"]
  /\ map harvest_Plant (map add_harvest_Plant (store_harvest sample_harvest))
     = ["1-A"].
Proof. split; reflexivity. Qed.


Lemma digit_of_ascii_of_digit (d : nat) :
  (d < 10)%nat -> digit_of_ascii (ascii_of_digit d) = Some d.
Proof.
  intro H. do 10 (destruct d as [|d]; [reflexivity|]). lia.
Qed.

Lemma two_digits_clock (a b : nat) :
  (a < 10)%nat -> (b < 10)%nat ->
  two_digits (ascii_of_digit a) (ascii_of_digit b) = Some (10 * a + b)%nat.
Proof.
  intros Ha Hb. unfold two_digits.
  now rewrite (digit_of_ascii_of_digit a Ha), (digit_of_ascii_of_digit b Hb).
Qed.

Lemma to_timedelta_clock (h1 h2 m1 m2 s1 s2 : nat) :
  (h1 < 10)%nat -> (h2 < 10)%nat -> (m1 < 10)%nat -> (m2 < 10)%nat ->
  (s1 < 10)%nat -> (s2 < 10)%nat ->
  to_timedelta (clock h1 h2 m1 m2 s1 s2)
  = Ok ((10 * h1 + h2)%nat, (10 * m1 + m2)%nat, (10 * s1 + s2)%nat).
Proof.
  intros. unfold to_timedelta, clock.
  now rewrite !two_digits_clock by assumption.
Qed.

Lemma seconds_to_hours (h m sec : nat) :
  total_seconds (h, m, sec) / 3600
  == inject_Z (Z.of_nat h) + inject_Z (Z.of_nat m) / 60
     + inject_Z (Z.of_nat sec) / 3600.
Proof.
  unfold total_seconds.
  rewrite !Nat2Z.inj_add, !Nat2Z.inj_mul, !inject_Z_plus, !inject_Z_mult.
  change (inject_Z (Z.of_nat 3600)) with 3600.
  change (inject_Z (Z.of_nat 60)) with 60.
  field.
Qed.

(** C6. A duration written "HH:MM:SS" is converted to the decimal hours
    [hours + minutes/60 + seconds/3600]. *)
Theorem daylight_decimal_hours (h1 h2 m1 m2 s1 s2 : nat) :
  (h1 < 10)%nat -> (h2 < 10)%nat -> (m1 < 10)%nat -> (m2 < 10)%nat ->
  (s1 < 10)%nat -> (s2 < 10)%nat ->
  exists x : Q,
    hours_of_daylight (clock h1 h2 m1 m2 s1 s2) = Ok x
    /\ x == inject_Z (Z.of_nat (10 * h1 + h2))
            + inject_Z (Z.of_nat (10 * m1 + m2)) / 60
            + inject_Z (Z.of_nat (10 * s1 + s2)) / 3600.
Proof.
  intros. unfold hours_of_daylight.
  rewrite to_timedelta_clock by assumption. cbn [bind Ok].
  eexists. split; [reflexivity | apply seconds_to_hours].
Qed.

(** "06:30:00" is 6.5 hours. *)
Lemma daylight_decimal_hours_witness :
  exists x : Q, hours_of_daylight "06:30:00" = Ok x /\ x == 6.5.
Proof.
  destruct (daylight_decimal_hours 0 6 3 0 0 0) as [x [Hx Heq]]; try lia.
  exists x. split; [exact Hx|]. rewrite Heq. reflexivity.
Defined.

Lemma prepare_Ok (l : Loaded) (G : Globals) :
  prepare l = Ok G ->
  exists sun,
    convert_sun_data (loaded_sun_data l) = Ok sun
    /\ loaded_unit_measurements l <> []
    /\ G = {| unit_parameters := loaded_unit_parameters l;
              sun_data := sun;
              unit_measurements := loaded_unit_measurements l;
              plant_growth := map add_growth_Plant (loaded_plant_growth l);
              plant_harvest := map add_harvest_Plant (loaded_plant_harvest l);
              unit_measurements_chart :=
                dropna_measurements (loaded_unit_measurements l);
              plant_growth_summary :=
                groupby_Date_mean (map add_growth_Plant (loaded_plant_growth l)) |}.
Proof.
  unfold prepare.
  destruct (loaded_plant_growth l) as [|g gs]; [discriminate|].
  destruct (loaded_plant_harvest l) as [|h hs]; [discriminate|].
  cbn [columns_of bind Ok].
  destruct (convert_sun_data (loaded_sun_data l)) as [e|sun];
    cbn [bind Ok]; [discriminate|].
  destruct (loaded_unit_measurements l) as [|m ms]; [discriminate|].
  destruct (loaded_unit_parameters l) as [|u us]; [discriminate|].
  cbn [columns_of bind Ok]. intro H.
  exists sun. split; [reflexivity|]. split; [discriminate|]. now inversion H.
Qed.

Lemma complete_iff (r : MeasurementRecord) :
  complete r = true <->
  Depth r <> None /\ pH r <> None /\ EC r <> None /\ PPM r <> None
  /\ Temperature r <> None.
Proof.
  unfold complete, notna.
  destruct (Depth r), (pH r), (EC r), (PPM r), (Temperature r); cbn;
    split; intros; try discriminate; try reflexivity;
    repeat split; try discriminate; tauto.
Qed.

(** A table that failed to load stops the module at the first column
    selection. *)
Lemma prepare_empty_growth (l : Loaded) :
  loaded_plant_growth l = [] -> prepare l = Raise KeyError.
Proof. intro H. unfold prepare. rewrite H. reflexivity. Qed.

(** C8. Once the module has run, the charting view holds exactly the rows of
    the measurements table whose depth, pH, EC, PPM and temperature are all
    present, in table order; the measurements table itself is the loaded one,
    rows with a missing value included, and [get_ph_insight] reads it. *)
Theorem filtered_view_keeps_raw (l : Loaded) (G : Globals) :
  prepare l = Ok G ->
  unit_measurements G = loaded_unit_measurements l
  /\ unit_measurements_chart G = filter complete (unit_measurements G)
  /\ (forall r : MeasurementRecord,
        In r (unit_measurements_chart G) <->
        In r (unit_measurements G)
        /\ Depth r <> None /\ pH r <> None /\ EC r <> None /\ PPM r <> None
        /\ Temperature r <> None)
  /\ (forall format_2f : num -> string,
        get_ph_insight format_2f G
        = Ok (ph_card format_2f (mean (map pH (unit_measurements G))))).
Proof.
  intro H. destruct (prepare_Ok l G H) as [sun [_ [Hne ->]]].
  cbn [unit_measurements unit_measurements_chart].
  unfold dropna_measurements.
  split; [reflexivity|]. split; [reflexivity|]. split.
  - intro r. rewrite filter_In, complete_iff. reflexivity.
  - intro format_2f. unfold get_ph_insight. cbn [unit_measurements].
    destruct (loaded_unit_measurements l); [contradiction | reflexivity].
Qed.

Lemma prepare_sample : prepare sample_loaded = Ok sample_globals.
Proof. vm_compute. reflexivity. Qed.

Lemma filtered_view_keeps_raw_witness :
  unit_measurements sample_globals = loaded_unit_measurements sample_loaded
  /\ unit_measurements_chart sample_globals
     = filter complete (unit_measurements sample_globals)
  /\ (forall r : MeasurementRecord,
        In r (unit_measurements_chart sample_globals) <->
        In r (unit_measurements sample_globals)
        /\ Depth r <> None /\ pH r <> None /\ EC r <> None /\ PPM r <> None
        /\ Temperature r <> None)
  /\ (forall format_2f : num -> string,
        get_ph_insight format_2f sample_globals
        = Ok (ph_card format_2f
                (mean (map pH (unit_measurements sample_globals))))).
Proof.
  apply (filtered_view_keeps_raw sample_loaded sample_globals).
  vm_compute. reflexivity.
Defined.

(** The row of the sample without an EC value is in the table and not in
    the charting view. *)
Example row_missing_EC :
  let r := {| Timestamp := "2025-03-01 09:00"; Depth := Some 4.0; pH := Some 6.3;
              EC := None; PPM := Some 705; Temperature := Some 21.7 |} in
  In r (unit_measurements sample_globals)
  /\ ~ In r (unit_measurements_chart sample_globals).
Proof.
  split.
  - right. left. reflexivity.
  - intros [H | []]. discriminate H.
Qed.

(** ** Aggregator *)

Lemma keys_add_to_group (d : date) (r : GrowthRecord) (gs : groups) (k : date) :
  In k (keys (add_to_group d r gs)) <-> k = d \/ In k (keys gs).
Proof.
  induction gs as [|[k0 rs0] gs IH]; cbn [add_to_group keys map fst In].
  - intuition.
  - fold (keys gs).
    destruct (Z.ltb_spec d k0); [|destruct (Z.eqb_spec d k0)];
      cbn [keys map fst In]; fold (keys gs);
      fold (keys (add_to_group d r gs)); try rewrite IH; intuition congruence.
Qed.

Lemma sorted_add_to_group (d : date) (r : GrowthRecord) (gs : groups) :
  StronglySorted Z.lt (keys gs) ->
  StronglySorted Z.lt (keys (add_to_group d r gs)).
Proof.
  induction gs as [|[k0 rs0] gs IH]; cbn [add_to_group keys map fst]; intro Hs.
  - repeat constructor.
  - fold (keys gs) in *. inversion Hs as [|? ? Hs' Hall]; subst.
    destruct (Z.ltb_spec d k0); [|destruct (Z.eqb_spec d k0)];
      cbn [keys map fst]; fold (keys gs); fold (keys (add_to_group d r gs)).
    + constructor; [exact Hs|]. constructor; [assumption|].
      eapply Forall_impl; [|exact Hall]. intros; cbn in *; lia.
    + exact Hs.
    + constructor; [now apply IH|].
      apply Forall_forall. intros k Hk. apply keys_add_to_group in Hk.
      destruct Hk as [-> | Hk]; [lia|].
      rewrite Forall_forall in Hall. now apply Hall.
Qed.

(** Where every group [k] of [gs] holds the rows [f k], adding a row of
    date [d] leaves the groups [f k], with the row appended for [k = d]. *)
Lemma rows_add_to_group (f : date -> list GrowthRecord) (d : date)
  (r : GrowthRecord) (gs : groups) :
  StronglySorted Z.lt (keys gs) ->
  (forall k rs, In (k, rs) gs -> rs = f k) ->
  (~ In d (keys gs) -> f d = []) ->
  forall k rs, In (k, rs) (add_to_group d r gs) ->
               rs = (f k ++ (if (k =? d)%Z then [r] else []))%list.
Proof.
  induction gs as [|[k0 rs0] gs IH]; cbn [add_to_group keys map fst];
    intros Hs Hrows Hd k rs Hin.
  - destruct Hin as [Hin | []]. injection Hin as <- <-.
    rewrite Z.eqb_refl, Hd; [reflexivity | intros []].
  - fold (keys gs) in *. inversion Hs as [|? ? Hs' Hall]; subst.
    rewrite Forall_forall in Hall.
    assert (Hlater : forall k' rs', In (k', rs') gs -> (k0 < k')%Z).
    { intros k' rs' H'. apply Hall. apply (in_map fst) in H'. exact H'. }
    destruct (Z.ltb_spec d k0) as [Hlt|Hge];
      [|destruct (Z.eqb_spec d k0) as [->|Hne]].
    + destruct Hin as [Hin | Hin].
      * injection Hin as <- <-. rewrite Z.eqb_refl, Hd; [reflexivity|].
        intros [-> | Hk]; [lia|]. specialize (Hall _ Hk). lia.
      * assert (k <> d).
        { destruct Hin as [Hin | Hin]; [injection Hin as <- <-; lia|].
          specialize (Hlater _ _ Hin). lia. }
        destruct (Z.eqb_spec k d); [contradiction|].
        rewrite app_nil_r. now apply Hrows.
    + destruct Hin as [Hin | Hin].
      * injection Hin as <- <-. rewrite Z.eqb_refl.
        f_equal. apply Hrows. now left.
      * specialize (Hlater _ _ Hin).
        destruct (Z.eqb_spec k k0); [lia|].
        rewrite app_nil_r. apply Hrows. now right.
    + destruct Hin as [Hin | Hin].
      * injection Hin as <- <-.
        destruct (Z.eqb_spec k0 d); [congruence|].
        rewrite app_nil_r. apply Hrows. now left.
      * apply IH; try assumption.
        -- intros k' rs' H'. apply Hrows. now right.
        -- intros Hnot. apply Hd. intros [Heq | Hk]; [congruence | contradiction].
Qed.

Lemma groupby_Date_snoc (df : list GrowthRecord) (r : GrowthRecord) :
  groupby_Date (df ++ [r]) = add_row (groupby_Date df) r.
Proof. unfold groupby_Date. now rewrite fold_left_app. Qed.

Lemma on_date_true (d : date) (r : GrowthRecord) :
  on_date d r = true <-> growth_Date (growth r) = Some d.
Proof.
  unfold on_date. destruct (growth_Date (growth r)) as [d'|].
  - rewrite Z.eqb_eq. split; congruence.
  - split; discriminate.
Qed.

Lemma filter_on_date_nil (d : date) (df : list GrowthRecord) :
  (forall r, In r df -> growth_Date (growth r) <> Some d) ->
  filter (on_date d) df = [].
Proof.
  induction df as [|r df IH]; intro H; cbn [filter]; [reflexivity|].
  destruct (on_date d r) eqn:E.
  - apply on_date_true in E. exfalso. apply (H r); [now left | exact E].
  - apply IH. intros r' Hr'. apply H. now right.
Qed.

Lemma grouped_groupby_Date (df : list GrowthRecord) :
  grouped df (groupby_Date df).
Proof.
  induction df as [|r df IH] using rev_ind.
  - repeat split; cbn; try constructor.
    + intros k rs [].
    + intros [].
    + intros [r [[] _]].
  - destruct IH as [Hs [Hrows Hkeys]].
    rewrite groupby_Date_snoc. unfold add_row.
    destruct (growth_Date (growth r)) as [d|] eqn:Hd.
    + split; [now apply sorted_add_to_group|]. split.
      * intros k rs Hin.
        rewrite filter_app. cbn [filter]. unfold on_date at 2. rewrite Hd.
        rewrite Z.eqb_sym.
        replace (if (k =? d)%Z then [r] else [])
          with (if (k =? d)%Z then [r] else @nil GrowthRecord)
          by reflexivity.
        apply (rows_add_to_group (fun k => filter (on_date k) df) d r
                 (groupby_Date df) Hs Hrows); [|exact Hin].
        intros Hnot. apply filter_on_date_nil. intros r' Hr' Hdate.
        apply Hnot. apply Hkeys. now exists r'.
      * intro k. rewrite keys_add_to_group, Hkeys. split.
        -- intros [-> | [r' [Hr' Hdate]]].
           ++ exists r. split; [apply in_or_app; right; now left | exact Hd].
           ++ exists r'. split; [apply in_or_app; now left | exact Hdate].
        -- intros [r' [Hr' Hdate]]. apply in_app_or in Hr'.
           destruct Hr' as [Hr' | [<- | []]].
           ++ right. now exists r'.
           ++ left. congruence.
    + split; [exact Hs|]. split.
      * intros k rs Hin. rewrite filter_app. cbn [filter].
        unfold on_date at 2. rewrite Hd. rewrite app_nil_r. now apply Hrows.
      * intro k. rewrite Hkeys. split.
        -- intros [r' [Hr' Hdate]]. exists r'.
           split; [apply in_or_app; now left | exact Hdate].
        -- intros [r' [Hr' Hdate]]. apply in_app_or in Hr'.
           destruct Hr' as [Hr' | [<- | []]]; [now exists r' | congruence].
Qed.

Lemma Date_groupby_Date_mean (df : list GrowthRecord) :
  map Date (groupby_Date_mean df) = keys (groupby_Date df).
Proof.
  unfold groupby_Date_mean, keys. rewrite map_map. reflexivity.
Qed.

Lemma sorted_lt_NoDup (l : list Z) : StronglySorted Z.lt l -> NoDup l.
Proof.
  induction 1 as [|x l Hs IH Hall]; constructor; [|exact IH].
  intro Hin. rewrite Forall_forall in Hall. specialize (Hall x Hin). lia.
Qed.

Lemma In_groupby_Date_mean (df : list GrowthRecord) (o : SummaryRow) :
  In o (groupby_Date_mean df) ->
  exists rs, In (Date o, rs) (groupby_Date df) /\ o = group_mean (Date o, rs).
Proof.
  unfold groupby_Date_mean. intro H. apply in_map_iff in H.
  destruct H as [[k rs] [<- Hin]]. exists rs. split; [exact Hin | reflexivity].
Qed.

(** C3. The summary of a growth table has its dates in strictly ascending
    order, hence one row per date; its dates are the dates carried by some
    row of the table; and each column of a summary row is the mean of that
    column over the rows of the table with the row's date, which, when none
    of these values is missing, is their sum over their count. *)
Theorem aggregator_one_row_per_date (df : list GrowthRecord) :
  StronglySorted Z.lt (map Date (groupby_Date_mean df))
  /\ NoDup (map Date (groupby_Date_mean df))
  /\ (forall d : date,
        In d (map Date (groupby_Date_mean df)) <->
        exists r, In r df /\ growth_Date (growth r) = Some d)
  /\ (forall (o : SummaryRow) (c : Column),
        In o (groupby_Date_mean df) ->
        summary_column c o
        = mean (map (growth_column c) (filter (on_date (Date o)) df)))
  /\ (forall (o : SummaryRow) (c : Column) (vs : list Q),
        In o (groupby_Date_mean df) ->
        map (growth_column c) (filter (on_date (Date o)) df) = map Some vs ->
        vs <> []
        /\ summary_column c o
           = Some (Qsum vs / inject_Z (Z.of_nat (List.length vs)))).
Proof.
  destruct (grouped_groupby_Date df) as [Hs [Hrows Hkeys]].
  assert (Hcol : forall (o : SummaryRow) (c : Column),
             In o (groupby_Date_mean df) ->
             summary_column c o
             = mean (map (growth_column c) (filter (on_date (Date o)) df))).
  { intros o c Hin. destruct (In_groupby_Date_mean df o Hin) as [rs [Hg Ho]].
    rewrite <- (Hrows _ _ Hg). rewrite Ho.
    destruct c; reflexivity. }
  rewrite Date_groupby_Date_mean.
  split; [exact Hs|]. split; [now apply sorted_lt_NoDup|].
  split; [exact Hkeys|]. split; [exact Hcol|].
  intros o c vs Hin Hvs.
  assert (Hne : vs <> []).
  { intros ->. cbn [map] in Hvs. apply map_eq_nil in Hvs.
    assert (Hk : In (Date o) (keys (groupby_Date df))).
    { rewrite <- Date_groupby_Date_mean. now apply in_map. }
    apply Hkeys in Hk. destruct Hk as [r [Hr Hdate]].
    assert (Hf : In r (filter (on_date (Date o)) df)).
    { apply filter_In. split; [exact Hr | now apply on_date_true]. }
    rewrite Hvs in Hf. exact Hf. }
  split; [exact Hne|].
  rewrite (Hcol o c Hin), Hvs. destruct vs as [|v vs]; [congruence|].
  apply mean_all_present.
Qed.

(** The summary charted for one plant is the aggregate of that plant's
    rows. *)
Lemma selected_growth_plant (G : Globals) (selected_plant : string) :
  selected_plant <> "all" ->
  selected_growth G selected_plant
  = groupby_Date_mean (select_plant selected_plant (plant_growth G)).
Proof.
  intro H. unfold selected_growth.
  destruct (String.eqb_spec selected_plant "all"); [contradiction | reflexivity].
Qed.

Example sample_summary_rows :
  map Date sample_summary = [20147%Z; 20148%Z]
  /\ map Width sample_summary = [Some (1.8 / 1); Some (2.0 / 1)].
Proof.
  split; [reflexivity|]. vm_compute. reflexivity.
Qed.

(** ** Projector *)

Lemma iloc_last_map {A B : Type} (f : A -> B) (l : list A) :
  iloc_last (map f l)
  = match iloc_last l with
    | inl e => inl e
    | inr x => Ok (f x)
    end.
Proof.
  induction l as [|x [|y l] IH]; try reflexivity.
  exact IH.
Qed.

(** On a frame with ascending dates the greatest date is the last one. *)
Lemma Date_max_sorted (df : list SummaryRow) (last : SummaryRow) :
  StronglySorted Z.lt (map Date df) ->
  iloc_last df = Ok last ->
  Date_max df = Some (Date last).
Proof.
  induction df as [|r [|r' df] IH]; intros Hs Hlast.
  - discriminate Hlast.
  - injection Hlast as <-. reflexivity.
  - change (iloc_last (r :: r' :: df)) with (iloc_last (r' :: df)) in Hlast.
    cbn [map] in Hs. inversion Hs as [|? ? Hs' Hall]; subst.
    change (Date_max (r :: r' :: df))
      with (match Date_max (r' :: df) with
            | None => Some (Date r)
            | Some m => Some (Z.max (Date r) m)
            end).
    rewrite (IH Hs' Hlast).
    assert (Hin : In (Date last) (map Date (r' :: df))).
    { clear - Hlast. revert Hlast.
      induction (r' :: df) as [|a [|b l] IHl]; intro H.
      - discriminate H.
      - injection H as <-. now left.
      - right. now apply IHl. }
    rewrite Forall_forall in Hall. specialize (Hall _ Hin).
    rewrite Z.max_r by lia. reflexivity.
Qed.

Lemma projections_length (np_random_uniform : rng) (days i : nat)
  (last_value : num) (growth_rate noise_factor : Q) :
  List.length (projections np_random_uniform i days last_value growth_rate
                 noise_factor) = days.
Proof.
  revert i last_value. induction days as [|days IH]; intros i last_value;
    cbn [projections List.length]; [reflexivity | now rewrite IH].
Qed.

Lemma date_range_length (start : date) (periods : nat) :
  List.length (date_range start periods) = periods.
Proof. unfold date_range. now rewrite length_map, length_seq. Qed.

Lemma nth_error_date_range (start : date) (periods k : nat) :
  (k < periods)%nat ->
  nth_error (date_range start periods) k = Some (start + Z.of_nat k)%Z.
Proof.
  intro H. unfold date_range.
  rewrite nth_error_map, nth_error_seq.
  destruct (Nat.ltb_spec k periods); [reflexivity | lia].
Qed.

Lemma nth_error_combine {A B : Type} (l : list A) (l' : list B) (k : nat)
  (a : A) (b : B) :
  nth_error l k = Some a -> nth_error l' k = Some b ->
  nth_error (combine l l') k = Some (a, b).
Proof.
  revert l l'. induction k as [|k IH]; intros [|x l] [|y l'] Ha Hb;
    try discriminate; cbn in *.
  - congruence.
  - now apply IH.
Qed.

Lemma pow_nonneg (x : Q) (k : nat) : 0 <= x -> 0 <= pow x k.
Proof.
  intro H. induction k as [|k IH]; cbn [pow]; [lra | nra].
Qed.

(** The [k]-th projected value, counted from 0, after [k + 1] draws. *)
Lemma projections_bounds (np_random_uniform : rng) (growth_rate noise_factor : Q) :
  (forall i, - noise_factor <= np_random_uniform i (- noise_factor) noise_factor
             /\ np_random_uniform i (- noise_factor) noise_factor <= noise_factor) ->
  noise_factor <= growth_rate ->
  forall (days i k : nat) (v : Q),
    (k < days)%nat ->
    exists x : Q,
      nth_error (projections np_random_uniform i days (Some v) growth_rate
                   noise_factor) k = Some (Some x)
      /\ (0 <= v ->
          v * pow (growth_rate - noise_factor) (S k) <= x
          /\ x <= v * pow (growth_rate + noise_factor) (S k))
      /\ (v <= 0 ->
          v * pow (growth_rate + noise_factor) (S k) <= x
          /\ x <= v * pow (growth_rate - noise_factor) (S k)).
Proof.
  intros Hdraw Hrate. induction days as [|days IH]; intros i k v Hk; [lia|].
  cbn [projections mul].
  pose proof (Hdraw i) as [Hlo Hhi]. revert Hlo Hhi.
  generalize (np_random_uniform i (- noise_factor) noise_factor).
  intros f Hlo Hhi.
  assert (Hf1 : 0 <= v -> v * (growth_rate - noise_factor) <= v * (growth_rate + f)
                          /\ v * (growth_rate + f) <= v * (growth_rate + noise_factor))
    by (intro; split; nra).
  assert (Hf2 : v <= 0 -> v * (growth_rate + noise_factor) <= v * (growth_rate + f)
                          /\ v * (growth_rate + f) <= v * (growth_rate - noise_factor))
    by (intro; split; nra).
  destruct k as [|k].
  - exists (v * (growth_rate + f)). split; [reflexivity|].
    cbn [pow]. split; intros Hv.
    + destruct (Hf1 Hv). split; lra.
    + destruct (Hf2 Hv). split; lra.
  - destruct (IH (S i) k (v * (growth_rate + f))) as [x [Hx [Hpos Hneg]]]; [lia|].
    exists x. split; [exact Hx|].
    assert (0 <= growth_rate - noise_factor) as H1 by lra.
    assert (0 <= growth_rate + noise_factor) as H2 by lra.
    pose proof (pow_nonneg (growth_rate - noise_factor) (S k) H1) as Hp.
    pose proof (pow_nonneg (growth_rate + noise_factor) (S k) H2) as HP.
    change (pow (growth_rate - noise_factor) (S (S k)))
      with ((growth_rate - noise_factor) * pow (growth_rate - noise_factor) (S k)).
    change (pow (growth_rate + noise_factor) (S (S k)))
      with ((growth_rate + noise_factor) * pow (growth_rate + noise_factor) (S k)).
    revert Hp HP Hpos Hneg.
    generalize (pow (growth_rate - noise_factor) (S k)).
    generalize (pow (growth_rate + noise_factor) (S k)).
    intros P p Hp HP Hpos Hneg.
    split; intros Hv.
    + destruct (Hf1 Hv) as [Ha Hb]. destruct Hpos as [Hx1 Hx2]; [nra|].
      split; nra.
    + destruct (Hf2 Hv) as [Ha Hb]. destruct Hneg as [Hx1 Hx2]; [nra|].
      split; nra.
Qed.

(** C2, with the condition it needs.  On a summary series, dates ascending,
    whose last row has date [d] and value [v], with every draw within
    [noise_factor] of zero and [noise_factor <= growth_rate],
    [extend_growth_data] returns [days] rows; row [k], counted from 0, has
    date [d + 1 + k], so the dates start the day after [d] and go up a day at
    a time, and a value between [v * (growth_rate - noise_factor)^(k+1)] and
    [v * (growth_rate + noise_factor)^(k+1)]. *)
Theorem projection_rows (np_random_uniform : rng) (df : list SummaryRow)
  (column : Column) (days : nat) (growth_rate noise_factor : Q)
  (last : SummaryRow) (v : Q) :
  StronglySorted Z.lt (map Date df) ->
  iloc_last df = Ok last ->
  summary_column column last = Some v ->
  (forall i, - noise_factor <= np_random_uniform i (- noise_factor) noise_factor
             /\ np_random_uniform i (- noise_factor) noise_factor <= noise_factor) ->
  noise_factor <= growth_rate ->
  exists out : list (date * num),
    extend_growth_data np_random_uniform df column days growth_rate noise_factor
    = Ok out
    /\ List.length out = days
    /\ forall k : nat, (k < days)%nat ->
       exists x : Q,
         nth_error out k = Some ((Date last + 1 + Z.of_nat k)%Z, Some x)
         /\ (0 <= v ->
             v * pow (growth_rate - noise_factor) (S k) <= x
             /\ x <= v * pow (growth_rate + noise_factor) (S k))
         /\ (v <= 0 ->
             v * pow (growth_rate + noise_factor) (S k) <= x
             /\ x <= v * pow (growth_rate - noise_factor) (S k)).
Proof.
  intros Hs Hlast Hv Hdraw Hrate. unfold extend_growth_data.
  rewrite iloc_last_map, Hlast. cbn [bind Ok]. rewrite Hv.
  rewrite (Date_max_sorted df last Hs Hlast).
  eexists. split; [reflexivity|]. split.
  - rewrite length_combine, date_range_length, projections_length.
    apply Nat.min_id.
  - intros k Hk.
    destruct (projections_bounds np_random_uniform growth_rate noise_factor
                Hdraw Hrate days 0 k v Hk) as [x [Hx Hb]].
    exists x. split; [|exact Hb].
    apply nth_error_combine; [|exact Hx].
    now apply nth_error_date_range.
Qed.

Lemma sample_rng_in_range (noise_factor : Q) :
  0 <= noise_factor ->
  forall i, - noise_factor <= sample_rng i (- noise_factor) noise_factor
            /\ sample_rng i (- noise_factor) noise_factor <= noise_factor.
Proof.
  intros H [|i]; cbn [sample_rng]; split; lra.
Qed.

Lemma projection_rows_witness :
  exists out : list (date * num),
    extend_growth_data sample_rng sample_summary Height_col default_days
      default_growth_rate default_noise_factor = Ok out
    /\ List.length out = default_days
    /\ forall k : nat, (k < default_days)%nat ->
       exists x : Q,
         nth_error out k = Some ((Date sample_last + 1 + Z.of_nat k)%Z, Some x)
         /\ (0 <= sample_last_height ->
             sample_last_height
               * pow (default_growth_rate - default_noise_factor) (S k) <= x
             /\ x <= sample_last_height
                       * pow (default_growth_rate + default_noise_factor) (S k))
         /\ (sample_last_height <= 0 ->
             sample_last_height
               * pow (default_growth_rate + default_noise_factor) (S k) <= x
             /\ x <= sample_last_height
                       * pow (default_growth_rate - default_noise_factor) (S k)).
Proof.
  apply (projection_rows sample_rng sample_summary Height_col default_days
           default_growth_rate default_noise_factor sample_last
           sample_last_height).
  - vm_compute. repeat constructor.
  - vm_compute. reflexivity.
  - vm_compute. reflexivity.
  - apply sample_rng_in_range. vm_compute. discriminate.
  - vm_compute. discriminate.
Defined.

(** C2 as stated fails when the noise may exceed the growth rate: with
    growth rate 1.02, noise 2 and the draws -2 and 2, both within the noise,
    the second value projected from 1 is negative, outside the interval
    between [(1.02 - 2)^2] and [(1.02 + 2)^2]. *)
Lemma projection_bound_fails :
  StronglySorted Z.lt (map Date unit_series)
  /\ (forall i, - (2) <= sample_rng i (- (2)) 2 /\ sample_rng i (- (2)) 2 <= 2)
  /\ exists (out : list (date * num)) (d : date) (x : Q),
       extend_growth_data sample_rng unit_series Height_col 2 1.02 2 = Ok out
       /\ nth_error out 1 = Some (d, Some x)
       /\ x < 0
       /\ ~ (1 * pow (1.02 - 2) 2 <= x /\ x <= 1 * pow (1.02 + 2) 2)
       /\ ~ (1 * pow (1.02 + 2) 2 <= x /\ x <= 1 * pow (1.02 - 2) 2).
Proof.
  split; [repeat constructor|]. split.
  - apply sample_rng_in_range. discriminate.
  - eexists. eexists. eexists.
    split; [vm_compute; reflexivity|].
    split; [reflexivity|].
    split; [reflexivity|].
    split; intros [H1 H2]; vm_compute in H1; vm_compute in H2;
      [apply H1 | apply H1]; reflexivity.
Qed.

(** C4. On a series without rows [extend_growth_data] raises the
    out-of-bounds error of [.iloc[-1]], the empty-series error; it returns no
    projection, from zero or from anything else. *)
Theorem projector_empty_series (np_random_uniform : rng) (column : Column)
  (days : nat) (growth_rate noise_factor : Q) :
  extend_growth_data np_random_uniform [] column days growth_rate noise_factor
  = Raise IndexError
  /\ forall out : list (date * num),
       extend_growth_data np_random_uniform [] column days growth_rate
         noise_factor <> Ok out.
Proof.
  split; [reflexivity | discriminate].
Qed.

(** A series of one row or more never raises. *)
Lemma projector_nonempty (np_random_uniform : rng) (r : SummaryRow)
  (df : list SummaryRow) (column : Column) (days : nat)
  (growth_rate noise_factor : Q) :
  exists out : list (date * num),
    extend_growth_data np_random_uniform (r :: df) column days growth_rate
      noise_factor = Ok out
    /\ List.length out = days.
Proof.
  unfold extend_growth_data.
  destruct (iloc_last (map (summary_column column) (r :: df))) as [e|v] eqn:Hl.
  - exfalso. revert Hl. generalize r.
    induction df as [|r' df IH]; intros r0 H; [discriminate H|].
    exact (IH r' H).
  - cbn [bind].
    assert (Hm : exists m, Date_max (r :: df) = Some m).
    { cbn [Date_max]. destruct (Date_max df); eexists; reflexivity. }
    destruct Hm as [m ->]. eexists. split; [reflexivity|].
    rewrite length_combine, date_range_length, projections_length.
    apply Nat.min_id.
Qed.

(** ** Threshold Evaluator *)

Section EvaluatorFacts.

Variable format_1f : num -> string.
Variable format_2f : num -> string.

(** C1. On a real-valued average the yield card is Critical below 30,
    Warning on [30, 50) and Normal from 50 on; the pH card is Critical below
    5.2 or above 6.8, Warning on [5.2, 5.5) and on (6.5, 6.8], and Normal on
    [5.5, 6.5].  The bands of a metric are disjoint and cover every value, so
    each value gets exactly one tier; 30 is Warning and 50 is Normal. *)
Theorem yield_ph_bands (v : Q) :
  ((title (yield_card format_1f (Some v)) = "Yield: Critical" <-> v < 30) /\
   (title (yield_card format_1f (Some v)) = "Yield: Warning" <-> 30 <= v /\ v < 50) /\
   (title (yield_card format_1f (Some v)) = "Yield: Normal" <-> 50 <= v)) /\
  ((title (ph_card format_2f (Some v)) = "pH: Critical" <-> v < 5.2 \/ 6.8 < v) /\
   (title (ph_card format_2f (Some v)) = "pH: Warning"
      <-> (5.2 <= v /\ v < 5.5) \/ (6.5 < v /\ v <= 6.8)) /\
   (title (ph_card format_2f (Some v)) = "pH: Normal" <-> 5.5 <= v /\ v <= 6.5)) /\
  (title (yield_card format_1f (Some 30)) = "Yield: Warning" /\
   title (yield_card format_1f (Some 50)) = "Yield: Normal").
Proof.
  split; [|split].
  - unfold yield_card, lt. compare_all; band.
  - unfold ph_card, gt, lt. compare_all; band;
      try (left; lra); try (right; lra);
      try (match goal with H : _ \/ _ |- _ => destruct H end; lra).
  - split; reflexivity.
Qed.

Lemma get_yield_insight_card (G : Globals) :
  plant_harvest G <> [] ->
  get_yield_insight format_1f G
  = Ok (yield_card format_1f
          (mean (map (fun r => Yield_Grams (harvest r)) (plant_harvest G)))).
Proof.
  unfold get_yield_insight.
  destruct (plant_harvest G); [contradiction | reflexivity].
Qed.

Lemma get_ph_insight_card (G : Globals) :
  unit_measurements G <> [] ->
  get_ph_insight format_2f G
  = Ok (ph_card format_2f (mean (map pH (unit_measurements G)))).
Proof.
  unfold get_ph_insight.
  destruct (unit_measurements G); [contradiction | reflexivity].
Qed.

Example yield_45_2 : title (yield_card format_1f (Some 45.2)) = "Yield: Warning".
Proof. reflexivity. Qed.

Example yield_55 : title (yield_card format_1f (Some 55.0)) = "Yield: Normal".
Proof. reflexivity. Qed.

Example ph_6_9 : title (ph_card format_2f (Some 6.9)) = "pH: Critical".
Proof. reflexivity. Qed.

(** An average over no value is NaN, every comparison with it is false, and
    the cards fall through to their last branch. *)
Lemma yield_card_NaN : title (yield_card format_1f NaN) = "Yield: Normal".
Proof. reflexivity. Qed.

Lemma ph_card_NaN : title (ph_card format_2f NaN) = "pH: Normal".
Proof. reflexivity. Qed.

Lemma severity_of_yield_card (avg : num) :
  severity_of (yield_card format_1f avg) <> None.
Proof.
  unfold yield_card.
  destruct (lt avg (Some 30)); [|destruct (lt avg (Some 50))]; discriminate.
Qed.

Lemma total_light_real (avg artificial : Q) :
  exists t, total_light (Some avg) (Some artificial) = Some t
            /\ t == Qmin (avg + artificial) 24.
Proof.
  unfold total_light, py_min, add, lt.
  destruct (Q.min_spec (avg + artificial) 24) as [[Hlt Hmin] | [Hle Hmin]];
    compare_all; eexists; (split; [reflexivity|]); lra.
Qed.

Lemma light_card_cases (total : num) :
  (lt total (Some 6) = true /\ title (light_card format_1f total) = "Light: Critical"
     /\ severity_of (light_card format_1f total) = Some Critical)
  \/ (lt total (Some 6) = false /\ title (light_card format_1f total) = "Light: Normal"
     /\ severity_of (light_card format_1f total) = Some Normal).
Proof.
  unfold light_card. destruct (lt total (Some 6)); [left | right];
    repeat split; reflexivity.
Qed.

(** C9. With sun data and [artificial] hours of artificial light in the
    first row of the unit parameters, [get_light_insight] returns the card of
    the total it computes from the mean of the daylight column and those
    hours.  For a real mean [avg] that total is [min (avg + artificial) 24],
    and the card is Critical when it is below 6 and Normal otherwise; on no
    total is the card a Warning. *)
Theorem light_two_tiers (G : Globals) (s : SunRecord) (ss : list SunRecord)
  (u : UnitParameters) (us : list UnitParameters) (artificial : Q) :
  sun_data G = s :: ss ->
  unit_parameters G = u :: us ->
  Artificial_Light_Hours u = Some artificial ->
  get_light_insight format_1f G
  = Ok (light_card format_1f
          (total_light (mean (map Hours_of_Daylight (sun_data G)))
             (Some artificial)))
  /\ (forall avg : Q,
        exists total : Q,
          total_light (Some avg) (Some artificial) = Some total
          /\ total == Qmin (avg + artificial) 24
          /\ (title (light_card format_1f (Some total)) = "Light: Critical"
              <-> total < 6)
          /\ (title (light_card format_1f (Some total)) = "Light: Normal"
              <-> 6 <= total))
  /\ (forall total : num,
        title (light_card format_1f total) = "Light: Critical"
        \/ title (light_card format_1f total) = "Light: Normal")
  /\ (forall total : num,
        severity_of (light_card format_1f total) <> Some Warning).
Proof.
  intros Hsun Hparams Hart. split; [|split; [|split]].
  - unfold get_light_insight, artificial_light.
    rewrite Hsun, Hparams, Hart. reflexivity.
  - intro avg. destruct (total_light_real avg artificial) as [t [Ht Hmin]].
    exists t. split; [exact Ht|]. split; [exact Hmin|].
    unfold light_card, lt; compare_all; band.
  - intro total. destruct (light_card_cases total) as [(_ & H & _) | (_ & H & _)];
      [left | right]; exact H.
  - intro total. destruct (light_card_cases total) as [(_ & _ & H) | (_ & _ & H)];
      rewrite H; discriminate.
Qed.

(** C10. [get_ec_insight] evaluates the literal 3.33 and nothing else: on
    every module state it returns the same card, the Critical card of the
    too-high branch. *)
Theorem ec_always_critical (G : Globals) :
  get_ec_insight format_2f G = ec_card format_2f (Some 3.33)
  /\ title (get_ec_insight format_2f G) = "EC: Critical"
  /\ message_top (get_ec_insight format_2f G)
     = "Electrical conductivity is too high. Target range is 1.0–2.0 S/m. Current: "
         ++ format_2f (Some 3.33) ++ "."
  /\ message_bottom (get_ec_insight format_2f G)
     = "Dilute with fresh water or flush the system to reduce salt buildup."
  /\ severity_of (get_ec_insight format_2f G) = Some Critical
  /\ (forall G' : Globals,
        get_ec_insight format_2f G' = get_ec_insight format_2f G).
Proof.
  repeat split; reflexivity.
Qed.

End EvaluatorFacts.

Lemma light_two_tiers_witness :
  get_light_insight no_format sample_globals
  = Ok (light_card no_format
          (total_light (mean (map Hours_of_Daylight (sun_data sample_globals)))
             (Some 8)))
  /\ (forall avg : Q,
        exists total : Q,
          total_light (Some avg) (Some 8) = Some total
          /\ total == Qmin (avg + 8) 24
          /\ (title (light_card no_format (Some total)) = "Light: Critical"
              <-> total < 6)
          /\ (title (light_card no_format (Some total)) = "Light: Normal"
              <-> 6 <= total))
  /\ (forall total : num,
        title (light_card no_format total) = "Light: Critical"
        \/ title (light_card no_format total) = "Light: Normal")
  /\ (forall total : num,
        severity_of (light_card no_format total) <> Some Warning).
Proof.
  apply (light_two_tiers no_format sample_globals
           {| sun_Date := "2025-03-01";
              Hours_of_Daylight := Some (total_seconds (6, 30, 0)%nat / 3600) |}
           [ {| sun_Date := "2025-03-02";
                Hours_of_Daylight := Some (total_seconds (11, 45, 30)%nat / 3600) |} ]
           {| Unit_ID := VStr "ATLAS-1"; Artificial_Light_Hours := Some 8 |} []);
    reflexivity.
Defined.

(** * Further properties *)

(** ** Data Loader, continued *)

Lemma replace_empty_not_empty (c : cell) : replace_empty c <> Text "".
Proof.
  destruct c as [|q|s|]; try discriminate.
  destruct s as [|a s]; discriminate.
Qed.

Lemma lookup_columns (h : string -> cell) (columns : list string)
  (key : string) :
  In key columns ->
  lookup key (map (fun k => (k, h k)) columns) = Some (h key).
Proof.
  unfold lookup. induction columns as [|k columns IH]; intro H;
    [destruct H|]. cbn [map find fst snd].
  destruct (String.eqb_spec k key) as [-> | Hne]; [reflexivity|].
  destruct H as [-> | Hin]; [contradiction | now apply IH].
Qed.

Lemma replace_empty_row (h : string -> cell) (columns : list string) :
  map (fun kv => (fst kv, replace_empty (snd kv)))
    (map (fun k => (k, h k)) columns)
  = map (fun k => (k, replace_empty (h k))) columns.
Proof. rewrite map_map. reflexivity. Qed.

(** X1. On a 200 answer [fetch_data] returns a frame with one row per
    record, in order, every row with the same columns, the keys of all the
    records; the cell of a row at a column is the value of its record at
    that key, the missing value where the record has not the key, and
    [pd.NA] in the place of an empty string, so that no cell of the frame is
    the empty string. *)
Theorem fetch_data_cleans (requests_get : network) (endpoint : string)
  (resp : response) :
  requests_get (url endpoint) = Ok resp ->
  status_code resp = 200%Z ->
  exists df : DataFrame,
    fetch_data requests_get endpoint = Ok df
    /\ List.length df = List.length (json resp)
    /\ (forall record key,
          In record (json resp) -> In key (map fst record) ->
          In key (frame_columns (json resp)))
    /\ (forall row, In row df -> map fst row = frame_columns (json resp))
    /\ (forall i record row key,
          nth_error (json resp) i = Some record ->
          nth_error df i = Some row ->
          In key (frame_columns (json resp)) ->
          lookup key row
          = Some (replace_empty (match lookup key record with
                                 | Some c => c
                                 | None => Null
                                 end)))
    /\ (forall row, In row df -> no_empty_string row).
Proof.
  intros Hget Hstatus.
  exists (replace_empty_frame (DataFrame_of_records (json resp))).
  split; [now apply fetch_data_success|].
  unfold replace_empty_frame, DataFrame_of_records.
  rewrite map_map. split; [now rewrite length_map|]. split; [|split; [|split]].
  - intros record key Hrec Hkey. unfold frame_columns.
    apply In_unique. apply in_concat. exists (map fst record).
    split; [now apply in_map | exact Hkey].
  - intros row Hrow. apply in_map_iff in Hrow. destruct Hrow as [record [<- _]].
    rewrite replace_empty_row, map_map. cbn [fst]. apply map_id.
  - intros i record row key Hrec Hrow Hkey.
    rewrite nth_error_map in Hrow. unfold json_record in *.
    rewrite Hrec in Hrow. cbn [option_map] in Hrow. injection Hrow as <-.
    rewrite replace_empty_row.
    exact (lookup_columns
             (fun k => replace_empty (match lookup k record with
                                      | Some c => c
                                      | None => Null
                                      end)) _ key Hkey).
  - intros row Hrow key Hkey. apply in_map_iff in Hrow.
    destruct Hrow as [record [<- _]]. rewrite replace_empty_row in Hkey.
    apply in_map_iff in Hkey. destruct Hkey as [k [Heq _]].
    injection Heq as _ Hc. exact (replace_empty_not_empty _ Hc).
Qed.

Lemma fetch_data_cleans_witness :
  exists df : DataFrame,
    fetch_data sample_network_mixed "plant-growth" = Ok df
    /\ List.length df = 2%nat
    /\ (forall record key,
          In record sample_records_mixed -> In key (map fst record) ->
          In key (frame_columns sample_records_mixed))
    /\ (forall row, In row df -> map fst row = frame_columns sample_records_mixed)
    /\ (forall i record row key,
          nth_error sample_records_mixed i = Some record ->
          nth_error df i = Some row ->
          In key (frame_columns sample_records_mixed) ->
          lookup key row
          = Some (replace_empty (match lookup key record with
                                 | Some c => c
                                 | None => Null
                                 end)))
    /\ (forall row, In row df -> no_empty_string row).
Proof.
  apply (fetch_data_cleans sample_network_mixed "plant-growth"
           {| status_code := 200; json := sample_records_mixed |});
    reflexivity.
Defined.

(** Two records with different keys load as two rows of three columns. *)
Example fetch_data_mixed :
  fetch_data sample_network_mixed "plant-growth"
  = Ok [ [("Level", Number 1); ("Side", NA); ("Date", Null)];
         [("Level", Number 2); ("Side", Null); ("Date", Text "2025-03-01")] ].
Proof. vm_compute. reflexivity. Qed.

Lemma fetch_each_answered (requests_get : network) (eps : list string) :
  (forall e, In e eps -> exists r, requests_get (url e) = Ok r) ->
  exists dfs,
    fetch_each requests_get eps = Ok dfs
    /\ Forall2 (fun e df => fetch_data requests_get e = Ok df) eps dfs.
Proof.
  induction eps as [|e eps IH]; intro H.
  - exists []. split; [reflexivity | constructor].
  - destruct (H e (or_introl eq_refl)) as [r Hr].
    destruct IH as [dfs [Hdfs Hall]]; [intros e' He'; apply H; now right|].
    assert (Hdf : exists df, fetch_data requests_get e = Ok df).
    { destruct (Z.eq_dec (status_code r) 200) as [E|E].
      - eexists. now apply (fetch_data_success requests_get e r).
      - eexists. now apply (fetch_data_non_success requests_get e r). }
    destruct Hdf as [df Hdf]. exists (df :: dfs). split.
    + cbn [fetch_each]. rewrite Hdf. cbn [bind Ok]. rewrite Hdfs. reflexivity.
    + now constructor.
Qed.

(** X2. When every one of the five requests is answered, whatever the
    status, [load_datasets] returns five frames, the frame of each endpoint
    being what [fetch_data] returns for it. *)
Theorem load_datasets_answered (requests_get : network) :
  (forall e, In e endpoints -> exists r, requests_get (url e) = Ok r) ->
  exists dfs,
    load_datasets requests_get = Ok dfs
    /\ List.length dfs = 5%nat
    /\ Forall2 (fun e df => fetch_data requests_get e = Ok df) endpoints dfs.
Proof.
  intro H. destruct (fetch_each_answered requests_get endpoints H)
    as [dfs [Hload Hall]].
  exists dfs. split; [exact Hload|]. split; [|exact Hall].
  apply Forall2_length in Hall. now rewrite <- Hall.
Qed.

Lemma sample_network_answers (e : string) :
  exists r, sample_network (url e) = Ok r.
Proof.
  unfold sample_network. destruct (url e =? url "sun-data")%string;
    eexists; reflexivity.
Qed.

Lemma load_datasets_answered_witness :
  exists dfs,
    load_datasets sample_network = Ok dfs
    /\ List.length dfs = 5%nat
    /\ Forall2 (fun e df => fetch_data sample_network e = Ok df) endpoints dfs.
Proof.
  apply (load_datasets_answered sample_network).
  intros e _. apply sample_network_answers.
Defined.

Lemma fetch_each_raises (requests_get : network) (eps : list string)
  (i : nat) (e : string) (x : exn) :
  nth_error eps i = Some e ->
  requests_get (url e) = Raise x ->
  (forall j e', (j < i)%nat -> nth_error eps j = Some e' ->
                exists r, requests_get (url e') = Ok r) ->
  fetch_each requests_get eps = Raise x.
Proof.
  revert i. induction eps as [|e0 eps IH]; intros [|i] Hnth Hraise Hbefore;
    try discriminate Hnth; cbn [nth_error] in Hnth; cbn [fetch_each].
  - injection Hnth as ->.
    now rewrite (fetch_data_raises requests_get e x Hraise).
  - destruct (Hbefore 0%nat e0) as [r Hr]; [lia | reflexivity |].
    assert (Hdf : exists df, fetch_data requests_get e0 = Ok df).
    { destruct (Z.eq_dec (status_code r) 200) as [E|E].
      - eexists. now apply (fetch_data_success requests_get e0 r).
      - eexists. now apply (fetch_data_non_success requests_get e0 r). }
    destruct Hdf as [df ->]. cbn [bind Ok].
    rewrite (IH i Hnth Hraise); [reflexivity|].
    intros j e' Hj He'. apply (Hbefore (S j) e'); [lia | exact He'].
Qed.

(** X3. An exception of [requests.get] is not contained: when the request
    of one endpoint raises and the requests before it were answered,
    [load_datasets] raises that exception and no table is loaded. *)
Theorem load_datasets_raises (requests_get : network) (i : nat) (e : string)
  (x : exn) :
  nth_error endpoints i = Some e ->
  requests_get (url e) = Raise x ->
  (forall j e', (j < i)%nat -> nth_error endpoints j = Some e' ->
                exists r, requests_get (url e') = Ok r) ->
  load_datasets requests_get = Raise x.
Proof.
  intros Hnth Hraise Hbefore.
  exact (fetch_each_raises requests_get endpoints i e x Hnth Hraise Hbefore).
Qed.

Lemma load_datasets_raises_witness :
  load_datasets sample_network_down = Raise ConnectionError.
Proof.
  apply (load_datasets_raises sample_network_down 2 "unit-measurements").
  - reflexivity.
  - reflexivity.
  - intros [|[|j]] e' Hj He'; [| |lia];
      injection He' as <-; eexists; reflexivity.
Defined.

(** ** Cleaner / Normalizer, continued *)

Lemma has_char_app (c : ascii) (a b : string) :
  has_char c (a ++ b) = has_char c a || has_char c b.
Proof.
  induction a as [|x a IH]; cbn [append has_char]; [reflexivity|].
  now rewrite IH, orb_assoc.
Qed.

Lemma has_hyphen_joined (a b : string) : has_char hyphen (a ++ "-" ++ b) = true.
Proof.
  rewrite has_char_app. cbn [append has_char].
  change (("-"%char =? hyphen)%char) with true.
  cbn [orb]. apply orb_true_r.
Qed.

(** X4. A plant identifier holds a hyphen and so is never the value "all"
    of the selector: selecting the identifier of a row always charts the
    rows of that plant, never the summary of all plants. *)
Theorem plant_identifier_not_all (G : Globals) (g : GrowthRaw) (h : HarvestRaw) :
  has_char hyphen (growth_Plant (add_growth_Plant g)) = true
  /\ has_char hyphen (harvest_Plant (add_harvest_Plant h)) = true
  /\ growth_Plant (add_growth_Plant g) <> "all"
  /\ harvest_Plant (add_harvest_Plant h) <> "all"
  /\ selected_growth G (growth_Plant (add_growth_Plant g))
     = groupby_Date_mean
         (select_plant (growth_Plant (add_growth_Plant g)) (plant_growth G)).
Proof.
  assert (Hg : has_char hyphen (growth_Plant (add_growth_Plant g)) = true)
    by apply has_hyphen_joined.
  assert (Hh : has_char hyphen (harvest_Plant (add_harvest_Plant h)) = true)
    by apply has_hyphen_joined.
  assert (Hg' : growth_Plant (add_growth_Plant g) <> "all").
  { intro E. rewrite E in Hg. discriminate Hg. }
  repeat split; try assumption.
  - intro E. rewrite E in Hh. discriminate Hh.
  - now apply selected_growth_plant.
Qed.

Lemma split_at_hyphen (a a' b b' : string) :
  has_char hyphen a = false -> has_char hyphen a' = false ->
  a ++ "-" ++ b = a' ++ "-" ++ b' ->
  a = a' /\ b = b'.
Proof.
  revert a'. induction a as [|c a IH]; intros [|c' a'] Ha Ha' E;
    cbn [append] in E.
  - injection E as ->. now split.
  - injection E as <- _. cbn [has_char] in Ha'.
    change (("-"%char =? hyphen)%char) with true in Ha'. discriminate Ha'.
  - injection E as -> _. cbn [has_char] in Ha.
    change (("-"%char =? hyphen)%char) with true in Ha. discriminate Ha.
  - injection E as -> E. cbn [has_char] in Ha, Ha'.
    apply orb_false_iff in Ha. apply orb_false_iff in Ha'.
    destruct (IH a' (proj2 Ha) (proj2 Ha') E) as [-> ->]. now split.
Qed.

(** X5. Two growth rows whose level has no hyphen get the same plant
    identifier only when their levels read the same and their sides read the
    same. *)
Theorem plant_identifier_injective (g g' : GrowthRaw) :
  has_char hyphen (astype_str (growth_Level g)) = false ->
  has_char hyphen (astype_str (growth_Level g')) = false ->
  growth_Plant (add_growth_Plant g) = growth_Plant (add_growth_Plant g') ->
  astype_str (growth_Level g) = astype_str (growth_Level g')
  /\ astype_str (growth_Side g) = astype_str (growth_Side g').
Proof.
  intros H H' E. exact (split_at_hyphen _ _ _ _ H H' E).
Qed.

Lemma plant_identifier_injective_witness :
  astype_str (VInt 1) = astype_str (VStr "1")
  /\ astype_str (VStr "A") = astype_str (VStr "A").
Proof.
  apply (plant_identifier_injective
           {| growth_Date := Some 20148%Z; growth_Level := VInt 1;
              growth_Side := VStr "A"; Height_Inches := Some 3.0;
              Width_Inches := Some 2.0; Leaf_Inches := Some 1.5 |}
           {| growth_Date := None; growth_Level := VStr "1";
              growth_Side := VStr "A"; Height_Inches := NaN;
              Width_Inches := NaN; Leaf_Inches := NaN |});
    reflexivity.
Defined.

(** With a hyphen in the level two different slots can share an
    identifier. *)
Example plant_identifier_clash :
  astype_str (VStr "1-2") ++ "-" ++ astype_str (VStr "3")
  = astype_str (VStr "1") ++ "-" ++ astype_str (VStr "2-3").
Proof. reflexivity. Qed.

Lemma filter_all_true {A : Type} (f : A -> bool) (l : list A) :
  (forall x, In x l -> f x = true) -> filter f l = l.
Proof.
  induction l as [|x l IH]; intro H; cbn [filter]; [reflexivity|].
  rewrite (H x (or_introl eq_refl)). f_equal. apply IH.
  intros y Hy. apply H. now right.
Qed.

Lemma filter_length_le {A : Type} (f : A -> bool) (l : list A) :
  (List.length (filter f l) <= List.length l)%nat.
Proof.
  induction l as [|x l IH]; cbn [filter List.length]; [lia|].
  destruct (f x); cbn [List.length]; lia.
Qed.

(** X6. Dropping incomplete rows a second time changes nothing; the view
    never has more rows than the table, and it is the whole table exactly
    when every row is complete. *)
Theorem dropna_measurements_idempotent (df : list MeasurementRecord) :
  dropna_measurements (dropna_measurements df) = dropna_measurements df
  /\ (List.length (dropna_measurements df) <= List.length df)%nat
  /\ (dropna_measurements df = df <->
      forall r, In r df -> complete r = true).
Proof.
  unfold dropna_measurements. split; [|split].
  - apply filter_all_true. intros r Hr. now apply filter_In in Hr.
  - apply filter_length_le.
  - split.
    + intros E r Hr. rewrite <- E in Hr. now apply filter_In in Hr.
    + apply filter_all_true.
Qed.

Lemma present_all (A : Type) (y : A -> num) (l : list A) :
  (forall r, In r l -> y r <> None) ->
  List.length (present (map y l)) = List.length l.
Proof.
  induction l as [|r l IH]; intro H; [reflexivity|].
  cbn [map]. destruct (y r) as [q|] eqn:E.
  - cbn [present List.length]. f_equal. apply IH.
    intros r' Hr'. apply H. now right.
  - exfalso. apply (H r); [now left | exact E].
Qed.

Lemma complete_column (c : MeasurementColumn) (r : MeasurementRecord) :
  complete r = true -> measurement_column c r <> None.
Proof.
  intro H. apply complete_iff in H.
  destruct H as (H1 & H2 & H3 & H4 & H5). destruct c; assumption.
Qed.

(** X7. On a charting view with a row, each of the five measurement charts
    has two traces over the timestamps of the view: the readings, and an
    average line with one point per row, at the sum of the readings over the
    number of rows. *)
Theorem measurement_chart_average (G : Globals) (c : MeasurementColumn) :
  unit_measurements_chart G = dropna_measurements (unit_measurements G) ->
  unit_measurements_chart G <> [] ->
  measurement_chart G c
  = [ {| trace_x := map Timestamp (unit_measurements_chart G);
         trace_y := map (measurement_column c) (unit_measurements_chart G) |};
      {| trace_x := map Timestamp (unit_measurements_chart G);
         trace_y :=
           repeat
             (Some (Qsum (present (map (measurement_column c)
                                     (unit_measurements_chart G)))
                    / inject_Z (Z.of_nat (List.length (unit_measurements_chart G)))))
             (List.length (unit_measurements_chart G)) |} ].
Proof.
  intros Hview Hne. unfold measurement_chart, create_chart, px_line.
  cbn [app]. do 3 f_equal.
  assert (Hlen : List.length (present (map (measurement_column c)
                                          (unit_measurements_chart G)))
                 = List.length (unit_measurements_chart G)).
  { apply present_all. intros r Hr. apply complete_column.
    rewrite Hview in Hr. unfold dropna_measurements in Hr.
    now apply filter_In in Hr. }
  unfold mean, arith_mean.
  destruct (present (map (measurement_column c) (unit_measurements_chart G)))
    as [|q qs] eqn:E.
  - destruct (unit_measurements_chart G); [contradiction | discriminate Hlen].
  - now rewrite <- Hlen.
Qed.

Lemma measurement_chart_average_witness :
  measurement_chart sample_globals EC_col
  = [ {| trace_x := map Timestamp (unit_measurements_chart sample_globals);
         trace_y := map (measurement_column EC_col)
                      (unit_measurements_chart sample_globals) |};
      {| trace_x := map Timestamp (unit_measurements_chart sample_globals);
         trace_y :=
           repeat
             (Some (Qsum (present (map (measurement_column EC_col)
                                     (unit_measurements_chart sample_globals)))
                    / inject_Z (Z.of_nat (List.length
                                            (unit_measurements_chart sample_globals)))))
             (List.length (unit_measurements_chart sample_globals)) |} ].
Proof.
  apply (measurement_chart_average sample_globals EC_col).
  - reflexivity.
  - vm_compute. discriminate.
Defined.

Lemma convert_duration_clock (x : option string) :
  clock_or_missing x -> exists h, convert_duration x = Ok h.
Proof.
  intros [-> | (h1 & h2 & m1 & m2 & s1 & s2 & H1 & H2 & H3 & H4 & H5 & H6 & ->)].
  - now exists NaN.
  - unfold convert_duration, hours_of_daylight.
    rewrite to_timedelta_clock by assumption. cbn [bind Ok].
    eexists. reflexivity.
Qed.

Lemma convert_sun_data_clock (df : list SunRaw) :
  (forall r, In r df -> clock_or_missing (raw_Hours_of_Daylight r)) ->
  exists out, convert_sun_data df = Ok out.
Proof.
  induction df as [|r df IH]; intro H; [now exists []|].
  destruct (convert_duration_clock _ (H r (or_introl eq_refl))) as [h Hh].
  destruct IH as [out Hout]; [intros r' Hr'; apply H; now right|].
  cbn [convert_sun_data]. rewrite Hh. cbn [bind Ok]. rewrite Hout.
  eexists. reflexivity.
Qed.

(** X8. With every duration of the sun data a clock string "HH:MM:SS" or
    missing, lines 46-88 run through exactly when the growth, harvest,
    measurement and unit-parameter tables each have a row, whether the sun
    data has rows or not; when one of the four has none they stop with
    [KeyError]. *)
Theorem prepare_succeeds_iff (l : Loaded) :
  (forall r, In r (loaded_sun_data l) ->
             clock_or_missing (raw_Hours_of_Daylight r)) ->
  ((exists G, prepare l = Ok G) <->
   loaded_plant_growth l <> [] /\ loaded_plant_harvest l <> []
   /\ loaded_unit_measurements l <> [] /\ loaded_unit_parameters l <> [])
  /\ (loaded_plant_growth l = [] \/ loaded_plant_harvest l = []
      \/ loaded_unit_measurements l = [] \/ loaded_unit_parameters l = [] ->
      prepare l = Raise KeyError).
Proof.
  intro Hsun. destruct (convert_sun_data_clock _ Hsun) as [sun Hconv].
  unfold prepare. rewrite Hconv.
  destruct (loaded_plant_growth l) as [|g gs];
    [split; [split; [intros [G H]; discriminate H | intros [H _]; contradiction]
            | reflexivity]|].
  destruct (loaded_plant_harvest l) as [|h hs];
    [split; [split; [intros [G H]; discriminate H
                    | intros (_ & H & _); contradiction]
            | reflexivity]|].
  destruct (loaded_unit_measurements l) as [|m ms];
    [split; [split; [intros [G H]; discriminate H
                    | intros (_ & _ & H & _); contradiction]
            | reflexivity]|].
  destruct (loaded_unit_parameters l) as [|u us];
    [split; [split; [intros [G H]; discriminate H
                    | intros (_ & _ & _ & H); contradiction]
            | reflexivity]|].
  cbn [columns_of bind Ok]. split.
  - split; [intros _; repeat split; discriminate | intros _; eexists; reflexivity].
  - intros [H | [H | [H | H]]]; discriminate H.
Qed.

Lemma sample_sun_clock (r : SunRaw) :
  In r (loaded_sun_data sample_loaded) ->
  clock_or_missing (raw_Hours_of_Daylight r).
Proof.
  intros [<- | [<- | []]]; right.
  - exists 0%nat, 6%nat, 3%nat, 0%nat, 0%nat, 0%nat.
    repeat split; try lia.
  - exists 1%nat, 1%nat, 4%nat, 5%nat, 3%nat, 0%nat.
    repeat split; try lia.
Qed.

Lemma prepare_succeeds_iff_witness :
  ((exists G, prepare sample_loaded = Ok G) <->
   loaded_plant_growth sample_loaded <> []
   /\ loaded_plant_harvest sample_loaded <> []
   /\ loaded_unit_measurements sample_loaded <> []
   /\ loaded_unit_parameters sample_loaded <> [])
  /\ (loaded_plant_growth sample_loaded = []
      \/ loaded_plant_harvest sample_loaded = []
      \/ loaded_unit_measurements sample_loaded = []
      \/ loaded_unit_parameters sample_loaded = [] ->
      prepare sample_loaded = Raise KeyError).
Proof.
  apply (prepare_succeeds_iff sample_loaded). exact sample_sun_clock.
Defined.

(** ** Aggregator, continued *)

Lemma count_succ (n : nat) :
  inject_Z (Z.of_nat (S n)) == inject_Z (Z.of_nat n) + 1.
Proof. rewrite Nat2Z.inj_succ. unfold Z.succ. now rewrite inject_Z_plus. Qed.

Lemma Qsum_below (c : Q) (x : Q) (l : list Q) :
  (forall y, In y (x :: l) -> y < c) ->
  Qsum (x :: l) < c * inject_Z (Z.of_nat (List.length (x :: l))).
Proof.
  revert x. induction l as [|x' l IH]; intros x H.
  - pose proof (H x (or_introl eq_refl)).
    change (Qsum [x]) with (x + 0).
    change (inject_Z (Z.of_nat (List.length [x]))) with 1. lra.
  - pose proof (H x (or_introl eq_refl)) as Hx.
    specialize (IH x' (fun y Hy => H y (or_intror Hy))).
    change (Qsum (x :: x' :: l)) with (x + Qsum (x' :: l)).
    change (List.length (x :: x' :: l)) with (S (List.length (x' :: l))).
    rewrite count_succ. lra.
Qed.

Lemma count_pos {A : Type} (x : A) (l : list A) :
  0 < inject_Z (Z.of_nat (List.length (x :: l))).
Proof.
  change 0 with (inject_Z 0). rewrite <- Zlt_Qlt. cbn [List.length]. lia.
Qed.

Lemma arith_mean_below (c m : Q) (l : list Q) :
  arith_mean l = Some m ->
  (forall x, In x l -> x < c) ->
  m < c.
Proof.
  destruct l as [|x l]; [discriminate|]. intros E H.
  injection E as <-.
  apply Qlt_shift_div_r; [apply (count_pos x l) | now apply Qsum_below].
Qed.

Lemma In_present (x : Q) (col : list num) :
  In x (present col) <-> In (Some x) col.
Proof.
  induction col as [|[y|] col IH]; cbn [present In].
  - tauto.
  - rewrite IH. split; intros [H | H]; auto; left; congruence.
  - rewrite IH. split; [auto | intros [H | H]; [discriminate | exact H]].
Qed.

Lemma Qsum_at_least (lo : Q) (l : list Q) :
  (forall x, In x l -> lo <= x) ->
  lo * inject_Z (Z.of_nat (List.length l)) <= Qsum l.
Proof.
  induction l as [|x l IH]; intro H.
  - unfold Qsum. cbn [List.length fold_right].
    change (inject_Z (Z.of_nat 0)) with 0. lra.
  - pose proof (H x (or_introl eq_refl)) as Hlo.
    specialize (IH (fun y Hy => H y (or_intror Hy))).
    change (Qsum (x :: l)) with (x + Qsum l).
    cbn [List.length]. rewrite count_succ. lra.
Qed.

Lemma mean_at_least (lo m : Q) (col : list num) :
  mean col = Some m ->
  (forall x, In (Some x) col -> lo <= x) ->
  lo <= m.
Proof.
  unfold mean. intros E H.
  destruct (present col) as [|x l] eqn:Ep; [discriminate E|].
  assert (Hsum : lo * inject_Z (Z.of_nat (List.length (x :: l))) <= Qsum (x :: l)).
  { apply Qsum_at_least. intros y Hy. apply H. apply In_present.
    now rewrite Ep. }
  injection E as <-.
  apply Qle_shift_div_l; [apply (count_pos x l) | exact Hsum].
Qed.

Lemma mean_below (c m : Q) (col : list num) :
  mean col = Some m ->
  (forall x, In (Some x) col -> x < c) ->
  m < c.
Proof.
  intros E H. apply (arith_mean_below c m (present col) E).
  intros x Hx. apply H. now apply In_present.
Qed.

Lemma add_to_group_length (d : date) (r : GrowthRecord) (gs : groups) :
  (List.length (add_to_group d r gs) <= S (List.length gs))%nat.
Proof.
  induction gs as [|[k rs] gs IH]; cbn [add_to_group List.length]; [lia|].
  destruct (d <? k)%Z; [cbn [List.length]; lia|].
  destruct (d =? k)%Z; cbn [List.length]; lia.
Qed.

Lemma groupby_Date_length (df : list GrowthRecord) :
  (List.length (groupby_Date df) <= List.length df)%nat.
Proof.
  induction df as [|r df IH] using rev_ind; [cbn; lia|].
  rewrite groupby_Date_snoc, length_app. cbn [List.length].
  unfold add_row. destruct (growth_Date (growth r)) as [d|]; [|lia].
  pose proof (add_to_group_length d r (groupby_Date df)). lia.
Qed.

Lemma groupby_Date_nil_iff (df : list GrowthRecord) :
  groupby_Date df = [] <->
  forall r, In r df -> growth_Date (growth r) = None.
Proof.
  destruct (grouped_groupby_Date df) as [_ [_ Hkeys]]. split.
  - intros E r Hr. destruct (growth_Date (growth r)) as [d|] eqn:Hd;
      [|reflexivity].
    assert (H : In d (keys (groupby_Date df))) by (apply Hkeys; now exists r).
    rewrite E in H. destruct H.
  - intro H. destruct (groupby_Date df) as [|[k rs] gs] eqn:E; [reflexivity|].
    assert (Hk : In k (keys ((k, rs) :: gs))) by now left.
    apply Hkeys in Hk. destruct Hk as [r [Hr Hd]].
    rewrite (H r Hr) in Hd. discriminate Hd.
Qed.

(** X9. The summary of a growth table has no row exactly when no row of the
    table has a date, and never more rows than the table. *)
Theorem summary_empty_iff (df : list GrowthRecord) :
  (groupby_Date_mean df = [] <->
   forall r, In r df -> growth_Date (growth r) = None)
  /\ (List.length (groupby_Date_mean df) <= List.length df)%nat.
Proof.
  unfold groupby_Date_mean. split.
  - rewrite <- groupby_Date_nil_iff. split; intro H.
    + now apply map_eq_nil in H.
    + now rewrite H.
  - rewrite length_map. apply groupby_Date_length.
Qed.

(** ** Projector, continued *)

Lemma Date_max_spec (r : SummaryRow) (df : list SummaryRow) :
  exists m, Date_max (r :: df) = Some m
            /\ In m (map Date (r :: df))
            /\ forall r', In r' (r :: df) -> (Date r' <= m)%Z.
Proof.
  revert r. induction df as [|r0 df IH]; intro r.
  - exists (Date r). split; [reflexivity|]. split; [now left|].
    intros r' [<- | []]. lia.
  - destruct (IH r0) as [m [Hm [Hin Hmax]]].
    exists (Z.max (Date r) m).
    change (Date_max (r :: r0 :: df))
      with (match Date_max (r0 :: df) with
            | None => Some (Date r)
            | Some m => Some (Z.max (Date r) m)
            end).
    rewrite Hm. split; [reflexivity|]. split.
    + destruct (Z.max_spec (Date r) m) as [[_ ->] | [_ ->]];
        [right; exact Hin | now left].
    + intros r' [<- | Hr']; [lia|]. specialize (Hmax r' Hr'). lia.
Qed.

Lemma map_fst_combine {A B : Type} (l : list A) (l' : list B) :
  List.length l = List.length l' -> map fst (combine l l') = l.
Proof.
  revert l'. induction l as [|x l IH]; intros [|y l'] H;
    try discriminate H; [reflexivity|].
  cbn [combine map fst]. f_equal. apply IH. now injection H.
Qed.

Lemma map_snd_combine {A B : Type} (l : list A) (l' : list B) :
  List.length l = List.length l' -> map snd (combine l l') = l'.
Proof.
  revert l'. induction l as [|x l IH]; intros [|y l'] H;
    try discriminate H; [reflexivity|].
  cbn [combine map snd]. f_equal. apply IH. now injection H.
Qed.

Lemma iloc_last_cons {A : Type} (x : A) (l : list A) :
  exists y, iloc_last (x :: l) = Ok y.
Proof.
  revert x. induction l as [|x' l IH]; intro x.
  - now exists x.
  - exact (IH x').
Qed.

Lemma extend_growth_data_cons (np_random_uniform : rng) (r : SummaryRow)
  (df : list SummaryRow) (column : Column) (days : nat)
  (growth_rate noise_factor : Q) :
  exists m last,
    Date_max (r :: df) = Some m
    /\ iloc_last (r :: df) = Ok last
    /\ extend_growth_data np_random_uniform (r :: df) column days growth_rate
         noise_factor
       = Ok (combine (date_range (m + 1)%Z days)
               (projections np_random_uniform 0 days
                  (summary_column column last) growth_rate noise_factor)).
Proof.
  destruct (Date_max_spec r df) as [m [Hm _]].
  destruct (iloc_last_cons r df) as [last Hlast].
  exists m, last. split; [exact Hm|]. split; [exact Hlast|].
  unfold extend_growth_data. rewrite iloc_last_map, Hlast. cbn [bind Ok].
  now rewrite Hm.
Qed.

(** X11. On a series with a row, whatever the order of its rows and the
    parameters, [extend_growth_data] returns [days] rows dated from the day
    after the latest date of the series, a day apart. *)
Theorem projection_dates_from_latest (np_random_uniform : rng)
  (r : SummaryRow) (df : list SummaryRow) (column : Column) (days : nat)
  (growth_rate noise_factor : Q) :
  exists (m : date) (out : list (date * num)),
    In m (map Date (r :: df))
    /\ (forall r', In r' (r :: df) -> (Date r' <= m)%Z)
    /\ extend_growth_data np_random_uniform (r :: df) column days growth_rate
         noise_factor = Ok out
    /\ List.length out = days
    /\ forall k, (k < days)%nat ->
                 nth_error (map fst out) k = Some (m + 1 + Z.of_nat k)%Z.
Proof.
  destruct (Date_max_spec r df) as [m [Hm [Hin Hmax]]].
  destruct (extend_growth_data_cons np_random_uniform r df column days
              growth_rate noise_factor) as [m' [last [Hm' [_ Hout]]]].
  rewrite Hm in Hm'. injection Hm' as <-.
  exists m. eexists. split; [exact Hin|]. split; [exact Hmax|].
  split; [exact Hout|].
  assert (Hlen : List.length (date_range (m + 1)%Z days)
                 = List.length (projections np_random_uniform 0 days
                                  (summary_column column last) growth_rate
                                  noise_factor))
    by now rewrite date_range_length, projections_length.
  split.
  - rewrite length_combine, <- Hlen, Nat.min_id. apply date_range_length.
  - intros k Hk. rewrite (map_fst_combine _ _ Hlen).
    now apply nth_error_date_range.
Qed.

Lemma projections_NaN (np_random_uniform : rng) (i days : nat)
  (growth_rate noise_factor : Q) :
  projections np_random_uniform i days NaN growth_rate noise_factor
  = repeat NaN days.
Proof.
  revert i. induction days as [|days IH]; intro i; [reflexivity|].
  cbn [projections mul NaN repeat]. f_equal. apply IH.
Qed.

Lemma iloc_last_nonempty {A : Type} (l : list A) (x : A) :
  iloc_last l = Ok x -> exists y l', l = y :: l'.
Proof. destruct l as [|y l']; [discriminate | intros _; now exists y, l']. Qed.

(** X12. When the last value of the column is missing, every one of the
    [days] projected values is missing too. *)
Theorem projection_of_missing (np_random_uniform : rng) (df : list SummaryRow)
  (column : Column) (days : nat) (growth_rate noise_factor : Q)
  (last : SummaryRow) :
  iloc_last df = Ok last ->
  summary_column column last = NaN ->
  exists out : list (date * num),
    extend_growth_data np_random_uniform df column days growth_rate
      noise_factor = Ok out
    /\ List.length out = days
    /\ forall p, In p out -> snd p = NaN.
Proof.
  intros Hlast Hnan. destruct (iloc_last_nonempty df last Hlast) as [r [df' ->]].
  destruct (extend_growth_data_cons np_random_uniform r df' column days
              growth_rate noise_factor) as [m [last' [_ [Hlast' Hout]]]].
  rewrite Hlast in Hlast'. injection Hlast' as <-.
  rewrite Hnan, projections_NaN in Hout.
  eexists. split; [exact Hout|].
  assert (Hlen : List.length (date_range (m + 1)%Z days)
                 = List.length (repeat NaN days))
    by now rewrite date_range_length, repeat_length.
  split.
  - rewrite length_combine, <- Hlen, Nat.min_id. apply date_range_length.
  - intros p Hp. apply (in_map snd) in Hp.
    rewrite (map_snd_combine _ _ Hlen) in Hp. now apply repeat_spec in Hp.
Qed.

Lemma projection_of_missing_witness :
  exists out : list (date * num),
    extend_growth_data sample_rng unit_series Width_col default_days
      default_growth_rate default_noise_factor = Ok out
    /\ List.length out = default_days
    /\ forall p, In p out -> snd p = NaN.
Proof.
  apply (projection_of_missing sample_rng unit_series Width_col default_days
           default_growth_rate default_noise_factor
           {| Date := 20148%Z; Height := Some 1; Width := NaN; Leaf := NaN |});
    reflexivity.
Defined.

(** X13. With every draw within [noise_factor] of zero and
    [noise_factor <= growth_rate], the projection of a value that is not
    negative has no negative and no missing value. *)
Theorem projection_not_negative (np_random_uniform : rng)
  (df : list SummaryRow) (column : Column) (days : nat)
  (growth_rate noise_factor : Q) (last : SummaryRow) (v : Q) :
  iloc_last df = Ok last ->
  summary_column column last = Some v ->
  0 <= v ->
  (forall i, - noise_factor <= np_random_uniform i (- noise_factor) noise_factor
             /\ np_random_uniform i (- noise_factor) noise_factor <= noise_factor) ->
  noise_factor <= growth_rate ->
  exists out : list (date * num),
    extend_growth_data np_random_uniform df column days growth_rate
      noise_factor = Ok out
    /\ forall p, In p out -> exists x : Q, snd p = Some x /\ 0 <= x.
Proof.
  intros Hlast Hv Hpos Hdraw Hrate.
  destruct (iloc_last_nonempty df last Hlast) as [r [df' ->]].
  destruct (extend_growth_data_cons np_random_uniform r df' column days
              growth_rate noise_factor) as [m [last' [_ [Hlast' Hout]]]].
  rewrite Hlast in Hlast'. injection Hlast' as <-. rewrite Hv in Hout.
  eexists. split; [exact Hout|].
  assert (Hlen : List.length (date_range (m + 1)%Z days)
                 = List.length (projections np_random_uniform 0 days (Some v)
                                  growth_rate noise_factor))
    by now rewrite date_range_length, projections_length.
  intros p Hp. apply (in_map snd) in Hp.
  rewrite (map_snd_combine _ _ Hlen) in Hp.
  apply In_nth_error in Hp. destruct Hp as [k Hk].
  assert (Hlt : (k < days)%nat).
  { rewrite <- (projections_length np_random_uniform days 0 (Some v)
                  growth_rate noise_factor).
    apply nth_error_Some. congruence. }
  destruct (projections_bounds np_random_uniform growth_rate noise_factor
              Hdraw Hrate days 0 k v Hlt) as [x [Hx [Hb _]]].
  rewrite Hx in Hk. injection Hk as Hk. exists x. split; [now symmetry|].
  destruct (Hb Hpos) as [Hlo _].
  assert (0 <= growth_rate - noise_factor) as H1 by lra.
  pose proof (pow_nonneg (growth_rate - noise_factor) (S k) H1) as Hp.
  revert Hlo Hp. generalize (pow (growth_rate - noise_factor) (S k)).
  intros q Hlo Hq. nra.
Qed.

Lemma projection_not_negative_witness :
  exists out : list (date * num),
    extend_growth_data sample_rng sample_summary Height_col default_days
      default_growth_rate default_noise_factor = Ok out
    /\ forall p, In p out -> exists x : Q, snd p = Some x /\ 0 <= x.
Proof.
  apply (projection_not_negative sample_rng sample_summary Height_col
           default_days default_growth_rate default_noise_factor sample_last
           sample_last_height).
  - vm_compute. reflexivity.
  - vm_compute. reflexivity.
  - vm_compute. discriminate.
  - apply sample_rng_in_range. vm_compute. discriminate.
  - vm_compute. discriminate.
Defined.

Lemma summary_has_dated_row (df : list GrowthRecord) (o : SummaryRow)
  (out : list SummaryRow) :
  groupby_Date_mean df = o :: out ->
  exists r, In r df /\ growth_Date (growth r) = Some (Date o).
Proof.
  intro E. destruct (grouped_groupby_Date df) as [_ [_ Hkeys]].
  apply Hkeys. rewrite <- Date_groupby_Date_mean, E. now left.
Qed.

(** X14. For a selection other than "all", the growth callback projects
    from the rows of that plant: when none of them has a date (the plant is
    not in the table, say) the projection raises [IndexError]; when one has,
    it returns [days] rows. *)
Theorem selected_plant_projection (np_random_uniform : rng) (G : Globals)
  (selected_plant : string) (column : Column) (days : nat)
  (growth_rate noise_factor : Q) :
  selected_plant <> "all" ->
  ((forall r, In r (plant_growth G) -> growth_Plant r = selected_plant ->
              growth_Date (growth r) = None)
   /\ extend_growth_data np_random_uniform (selected_growth G selected_plant)
        column days growth_rate noise_factor = Raise IndexError)
  \/ ((exists r d, In r (plant_growth G) /\ growth_Plant r = selected_plant
                   /\ growth_Date (growth r) = Some d)
      /\ exists out : list (date * num),
           extend_growth_data np_random_uniform
             (selected_growth G selected_plant) column days growth_rate
             noise_factor = Ok out
           /\ List.length out = days).
Proof.
  intro Hsel. rewrite (selected_growth_plant G selected_plant Hsel).
  destruct (groupby_Date_mean (select_plant selected_plant (plant_growth G)))
    as [|o out] eqn:E.
  - left. split; [|reflexivity].
    intros r Hr Hplant.
    apply (proj1 (groupby_Date_nil_iff
                    (select_plant selected_plant (plant_growth G)))).
    + unfold groupby_Date_mean in E. now apply map_eq_nil in E.
    + unfold select_plant. apply filter_In. split; [exact Hr|].
      now apply String.eqb_eq.
  - right. split.
    + destruct (summary_has_dated_row _ o out E) as [r [Hr Hd]].
      unfold select_plant in Hr. apply filter_In in Hr.
      destruct Hr as [Hr Hplant]. apply String.eqb_eq in Hplant.
      now exists r, (Date o).
    + apply projector_nonempty.
Qed.

Lemma selected_plant_projection_witness :
  ((forall r, In r (plant_growth sample_globals) -> growth_Plant r = "9-Z" ->
              growth_Date (growth r) = None)
   /\ extend_growth_data sample_rng (selected_growth sample_globals "9-Z")
        Height_col default_days default_growth_rate default_noise_factor
      = Raise IndexError)
  \/ ((exists r d, In r (plant_growth sample_globals) /\ growth_Plant r = "9-Z"
                   /\ growth_Date (growth r) = Some d)
      /\ exists out : list (date * num),
           extend_growth_data sample_rng (selected_growth sample_globals "9-Z")
             Height_col default_days default_growth_rate default_noise_factor
           = Ok out
           /\ List.length out = default_days).
Proof.
  apply (selected_plant_projection sample_rng sample_globals "9-Z").
  discriminate.
Defined.

Lemma tail_1_iloc_last {A : Type} (l : list A) (x : A) :
  iloc_last l = Ok x -> tail_1 l = [x].
Proof.
  induction l as [|y [|z l] IH]; intro H.
  - discriminate H.
  - now injection H as ->.
  - exact (IH H).
Qed.

Lemma Column_eqb_refl (c : Column) : Column_eqb c c = true.
Proof. destruct c; reflexivity. Qed.

(** X15. On a summary series, dates ascending, the forecast trace that
    [create_projection_chart] draws from a projection by
    [extend_growth_data] of the same column starts at the last point of the
    series and goes on with the projected rows: its dates are the last date
    and the [days] days after it. *)
Theorem forecast_continues_series (np_random_uniform : rng)
  (df : list SummaryRow) (column : Column) (days : nat)
  (growth_rate noise_factor : Q) (last : SummaryRow)
  (out : list (date * num)) :
  StronglySorted Z.lt (map Date df) ->
  iloc_last df = Ok last ->
  extend_growth_data np_random_uniform df column days growth_rate noise_factor
  = Ok out ->
  create_projection_chart df out column column
  = [ {| trace_x := map Date df; trace_y := map (summary_column column) df |};
      {| trace_x := Date last :: map fst out;
         trace_y := summary_column column last :: map snd out |} ]
  /\ forall k, (k <= days)%nat ->
       nth_error (Date last :: map fst out) k = Some (Date last + Z.of_nat k)%Z.
Proof.
  intros Hs Hlast Hout. split.
  - unfold create_projection_chart, px_line.
    rewrite (tail_1_iloc_last df last Hlast), Column_eqb_refl.
    cbn [map app fst snd]. rewrite !map_map. reflexivity.
  - unfold extend_growth_data in Hout.
    rewrite iloc_last_map, Hlast in Hout. cbn [bind Ok] in Hout.
    rewrite (Date_max_sorted df last Hs Hlast) in Hout.
    injection Hout as <-.
    rewrite map_fst_combine
      by now rewrite date_range_length, projections_length.
    intros [|k] Hk; cbn [nth_error].
    + f_equal. lia.
    + rewrite nth_error_date_range by lia. f_equal. lia.
Qed.

Lemma forecast_continues_series_witness :
  exists out : list (date * num),
    extend_growth_data sample_rng sample_summary Leaf_col 3 default_growth_rate
      default_noise_factor = Ok out
    /\ create_projection_chart sample_summary out Leaf_col Leaf_col
       = [ {| trace_x := map Date sample_summary;
              trace_y := map (summary_column Leaf_col) sample_summary |};
           {| trace_x := Date sample_last :: map fst out;
              trace_y := summary_column Leaf_col sample_last :: map snd out |} ]
    /\ forall k, (k <= 3)%nat ->
         nth_error (Date sample_last :: map fst out) k
         = Some (Date sample_last + Z.of_nat k)%Z.
Proof.
  destruct (extend_growth_data sample_rng sample_summary Leaf_col 3
              default_growth_rate default_noise_factor) as [e|out] eqn:E;
    [discriminate E|].
  exists out. split; [reflexivity|].
  apply (forecast_continues_series sample_rng sample_summary Leaf_col 3
           default_growth_rate default_noise_factor sample_last out).
  - vm_compute. repeat constructor.
  - vm_compute. reflexivity.
  - exact E.
Defined.

(** ** Chart data *)

Lemma take_every_length {A : Type} (step skip : nat) (l : list A) :
  (skip < step)%nat ->
  List.length (take_every step skip l)
  = ((List.length l + (step - 1 - skip)) / step)%nat.
Proof.
  intro Hstep. revert skip Hstep.
  induction l as [|x l IH]; intros skip Hskip; cbn [take_every List.length].
  - symmetry. apply Nat.div_small. lia.
  - destruct skip as [|skip]; cbn [List.length].
    + rewrite IH by lia.
      replace (List.length l + (step - 1 - (step - 1)))%nat
        with (List.length l) by lia.
      replace (S (List.length l) + (step - 1 - 0))%nat
        with (List.length l + 1 * step)%nat by lia.
      rewrite Nat.div_add by lia. lia.
    + rewrite IH by lia. f_equal. lia.
Qed.

(** X16. [create_sunlight_chart] raises [ValueError] on sun data of fewer
    than five rows: without rows the frame lacks the columns to plot, and
    with one to four rows the step of the tick slice is zero. *)
Theorem sunlight_chart_needs_five_rows (df : list SunRecord) :
  (List.length df < 5)%nat ->
  create_sunlight_chart df = Raise ValueError.
Proof.
  intro H. destruct df as [|r df]; [reflexivity|].
  unfold create_sunlight_chart.
  rewrite (Nat.div_small (List.length (r :: df)) 5 H). reflexivity.
Qed.

Lemma sunlight_chart_needs_five_rows_witness :
  create_sunlight_chart (sun_data sample_globals) = Raise ValueError.
Proof.
  apply (sunlight_chart_needs_five_rows (sun_data sample_globals)).
  cbn. lia.
Defined.

(** X17. On sun data of five rows or more [create_sunlight_chart] returns
    the daylight line and an average line of as many points, with tick
    values that start at the first date and number from five to nine: five
    when the number of rows is a multiple of five. *)
Theorem sunlight_chart_ticks (r : SunRecord) (df : list SunRecord) :
  (5 <= List.length (r :: df))%nat ->
  exists fig : SunlightFigure,
    create_sunlight_chart (r :: df) = Ok fig
    /\ sunlight_traces fig
       = [ px_line (r :: df) sun_Date Hours_of_Daylight;
           {| trace_x := map sun_Date (r :: df);
              trace_y := repeat (mean (map Hours_of_Daylight (r :: df)))
                           (List.length (r :: df)) |} ]
    /\ hd_error (tickvals fig) = Some (sun_Date r)
    /\ (5 <= List.length (tickvals fig) <= 9)%nat
    /\ (List.length (r :: df) mod 5 = 0 ->
        List.length (tickvals fig) = 5)%nat.
Proof.
  intro Hn. unfold create_sunlight_chart, slice_step.
  set (n := List.length (r :: df)) in *.
  assert (Hdiv : (n = 5 * (n / 5) + n mod 5)%nat) by apply Nat.div_mod_eq.
  assert (Hmod : (n mod 5 < 5)%nat) by (apply Nat.mod_upper_bound; lia).
  destruct (n / 5)%nat as [|s] eqn:Es; [lia|].
  cbn [bind Ok]. eexists. split; [reflexivity|].
  cbn [sunlight_traces tickvals]. split; [reflexivity|].
  split; [reflexivity|].
  rewrite take_every_length by lia. rewrite length_map. fold n.
  replace (n + (S s - 1 - 0))%nat with (n + s)%nat by lia.
  assert (Hlo : (5 * S s <= n + s)%nat) by lia.
  assert (Hhi : (n + s < 10 * S s)%nat) by lia.
  split; [split|].
  - apply Nat.div_le_lower_bound; lia.
  - assert ((n + s) / S s < 10)%nat by (apply Nat.Div0.div_lt_upper_bound; lia).
    lia.
  - intro H0. rewrite H0 in Hdiv.
    replace (n + s)%nat with (s + 5 * S s)%nat by lia.
    rewrite Nat.div_add by lia. rewrite Nat.div_small by lia. reflexivity.
Qed.

Lemma sunlight_chart_ticks_witness :
  exists fig : SunlightFigure,
    create_sunlight_chart sample_sun_week = Ok fig
    /\ sunlight_traces fig
       = [ px_line sample_sun_week sun_Date Hours_of_Daylight;
           {| trace_x := map sun_Date sample_sun_week;
              trace_y := repeat (mean (map Hours_of_Daylight sample_sun_week))
                           (List.length sample_sun_week) |} ]
    /\ hd_error (tickvals fig) = Some "03-01"
    /\ (5 <= List.length (tickvals fig) <= 9)%nat
    /\ (List.length sample_sun_week mod 5 = 0 ->
        List.length (tickvals fig) = 5)%nat.
Proof.
  apply (sunlight_chart_ticks
           {| sun_Date := "03-01"; Hours_of_Daylight := Some 11 |}
           (tl sample_sun_week)).
  cbn. lia.
Defined.

(** Seven rows give seven ticks, not five. *)
Example sunlight_chart_week_ticks :
  option_map (fun fig => List.length (tickvals fig))
    (match create_sunlight_chart sample_sun_week with
     | inr fig => Some fig
     | inl _ => None
     end) = Some 7%nat.
Proof. vm_compute. reflexivity. Qed.

(** ** Threshold Evaluator, continued *)

Section MoreEvaluatorFacts.

Variable format_1f : num -> string.
Variable format_2f : num -> string.

(** X18. On a real average the leaf-size card is Critical below 2, Warning
    on [2, 3) and Normal from 3 on. *)
Theorem leaf_bands (v : Q) :
  (title (leaf_card format_1f (Some v)) = "Leaf Size: Critical" <-> v < 2)
  /\ (title (leaf_card format_1f (Some v)) = "Leaf Size: Warning"
      <-> 2 <= v /\ v < 3)
  /\ (title (leaf_card format_1f (Some v)) = "Leaf Size: Normal" <-> 3 <= v).
Proof.
  unfold leaf_card, lt. compare_all; band.
Qed.

(** X19. On a real average the Brix card is Critical below 6, Warning on
    [6, 8) and Normal from 8 on. *)
Theorem brix_bands (v : Q) :
  (title (brix_card format_1f (Some v)) = "Brix Score: Critical" <-> v < 6)
  /\ (title (brix_card format_1f (Some v)) = "Brix Score: Warning"
      <-> 6 <= v /\ v < 8)
  /\ (title (brix_card format_1f (Some v)) = "Brix Score: Normal" <-> 8 <= v).
Proof.
  unfold brix_card, lt. compare_all; band.
Qed.

(** X20. The branches of the EC card: a real value is Critical below 0.7 or
    above 2.5, Warning on [0.7, 1.0) and on (2.0, 2.5], and Normal on
    [1.0, 2.0]. *)
Theorem ec_bands (v : Q) :
  (title (ec_card format_2f (Some v)) = "EC: Critical" <-> v < 0.7 \/ 2.5 < v)
  /\ (title (ec_card format_2f (Some v)) = "EC: Warning"
      <-> (0.7 <= v /\ v < 1.0) \/ (2.0 < v /\ v <= 2.5))
  /\ (title (ec_card format_2f (Some v)) = "EC: Normal"
      <-> 1.0 <= v /\ v <= 2.0).
Proof.
  unfold ec_card, gt, lt. compare_all; band;
    try (left; lra); try (right; lra);
    try (match goal with H : _ \/ _ |- _ => destruct H end; lra).
Qed.



(** X22. The cap at 24 hours never decides the tier: on a real mean of
    daylight the light card is Critical exactly when the mean plus the
    artificial hours is below 6. *)
Theorem light_tier_ignores_cap (avg artificial : Q) :
  (title (light_card format_1f (total_light (Some avg) (Some artificial)))
   = "Light: Critical" <-> avg + artificial < 6)
  /\ (title (light_card format_1f (total_light (Some avg) (Some artificial)))
      = "Light: Normal" <-> 6 <= avg + artificial).
Proof.
  unfold light_card, total_light, py_min, add, lt. compare_all; band.
Qed.

(** X23. When at least one yield is recorded, recorded yields all of 50 or
    more give the Normal card, all below 30 the Critical card, and all in
    [30, 50) the Warning card. *)
Theorem yield_card_by_range (G : Globals) (y : Q) :
  In (Some y) (map (fun r => Yield_Grams (harvest r)) (plant_harvest G)) ->
  exists c,
    get_yield_insight format_1f G = Ok c
    /\ ((forall x, In (Some x) (map (fun r => Yield_Grams (harvest r))
                                  (plant_harvest G)) -> 50 <= x) ->
        title c = "Yield: Normal")
    /\ ((forall x, In (Some x) (map (fun r => Yield_Grams (harvest r))
                                  (plant_harvest G)) -> x < 30) ->
        title c = "Yield: Critical")
    /\ ((forall x, In (Some x) (map (fun r => Yield_Grams (harvest r))
                                  (plant_harvest G)) -> 30 <= x /\ x < 50) ->
        title c = "Yield: Warning").
Proof.
  intro Hy. unfold get_yield_insight.
  destruct (plant_harvest G) as [|h hs] eqn:Eh; [destruct Hy|].
  cbn [columns_of bind Ok]. eexists. split; [reflexivity|].
  set (col := map (fun r => Yield_Grams (harvest r)) (h :: hs)) in *.
  destruct (mean col) as [m|] eqn:Em.
  2:{ exfalso. unfold mean in Em. apply In_present in Hy.
      destruct (present col); [destruct Hy | discriminate Em]. }
  split; [|split]; intro H.
  - pose proof (mean_at_least 50 m col Em H).
    unfold yield_card, lt. compare_all; band.
  - pose proof (mean_below 30 m col Em H).
    unfold yield_card, lt. compare_all; band.
  - pose proof (mean_at_least 30 m col Em (fun x Hx => proj1 (H x Hx))).
    pose proof (mean_below 50 m col Em (fun x Hx => proj2 (H x Hx))).
    unfold yield_card, lt. compare_all; band.
Qed.

End MoreEvaluatorFacts.


Lemma yield_card_by_range_witness :
  exists c,
    get_yield_insight no_format sample_globals = Ok c
    /\ ((forall x, In (Some x) (map (fun r => Yield_Grams (harvest r))
                                  (plant_harvest sample_globals)) -> 50 <= x) ->
        title c = "Yield: Normal")
    /\ ((forall x, In (Some x) (map (fun r => Yield_Grams (harvest r))
                                  (plant_harvest sample_globals)) -> x < 30) ->
        title c = "Yield: Critical")
    /\ ((forall x, In (Some x) (map (fun r => Yield_Grams (harvest r))
                                  (plant_harvest sample_globals)) ->
                   30 <= x /\ x < 50) ->
        title c = "Yield: Warning").
Proof.
  apply (yield_card_by_range no_format sample_globals 45.2).
  left. reflexivity.
Defined.

(** ** Plant selector *)

Lemma leb_refl (a : string) : (a <=? a)%string = true.
Proof.
  pose proof (proj2 (String_as_OT.cmp_eq a a) eq_refl) as H.
  unfold String_as_OT.cmp in H. unfold String.leb. now rewrite H.
Qed.

Lemma leb_cases (a b : string) :
  (a <=? b)%string = true <-> a = b \/ String_as_OT.lt a b.
Proof.
  unfold String.leb. destruct (a ?= b)%string eqn:E.
  - apply (proj1 (String_as_OT.cmp_eq a b)) in E.
    split; [now left | reflexivity].
  - apply (proj1 (String_as_OT.cmp_lt a b)) in E.
    split; [now right | reflexivity].
  - split; [discriminate|]. intros [-> | H].
    + pose proof (proj2 (String_as_OT.cmp_eq b b) eq_refl) as H.
      unfold String_as_OT.cmp in H. congruence.
    + apply String_as_OT.cmp_lt in H. unfold String_as_OT.cmp in H.
      congruence.
Qed.

Lemma leb_trans (a b c : string) :
  (a <=? b)%string = true -> (b <=? c)%string = true ->
  (a <=? c)%string = true.
Proof.
  rewrite !leb_cases. intros [-> | Hab] [-> | Hbc]; auto.
  right. exact (String_as_OT.lt_trans _ _ _ Hab Hbc).
Qed.

Lemma In_insert_sorted (x y : string) (l : list string) :
  In x (insert_sorted y l) <-> x = y \/ In x l.
Proof.
  induction l as [|z l IH]; cbn [insert_sorted In].
  - intuition.
  - destruct (y <=? z)%string; cbn [In]; [|rewrite IH]; intuition.
Qed.

Lemma In_sorted (x : string) (l : list string) : In x (sorted l) <-> In x l.
Proof.
  unfold sorted. induction l as [|y l IH]; cbn [fold_right In]; [tauto|].
  rewrite In_insert_sorted, IH. intuition.
Qed.

Lemma insert_sorted_sorted (x : string) (l : list string) :
  StronglySorted leb_prop l -> StronglySorted leb_prop (insert_sorted x l).
Proof.
  induction l as [|y l IH]; intro Hs; cbn [insert_sorted].
  - repeat constructor.
  - inversion Hs as [|? ? Hs' Hall]; subst.
    destruct (x <=? y)%string eqn:E.
    + constructor; [exact Hs|]. constructor; [exact E|].
      eapply Forall_impl; [|exact Hall]. intros z Hz.
      exact (leb_trans x y z E Hz).
    + constructor; [now apply IH|].
      apply Forall_forall. intros z Hz. apply In_insert_sorted in Hz.
      destruct Hz as [-> | Hz].
      * destruct (String.leb_total x y) as [H | H]; [congruence | exact H].
      * rewrite Forall_forall in Hall. now apply Hall.
Qed.

Lemma sorted_sorted (l : list string) : StronglySorted leb_prop (sorted l).
Proof.
  unfold sorted. induction l as [|x l IH]; cbn [fold_right];
    [constructor | now apply insert_sorted_sorted].
Qed.

Lemma NoDup_insert_sorted (x : string) (l : list string) :
  ~ In x l -> NoDup l -> NoDup (insert_sorted x l).
Proof.
  induction l as [|y l IH]; intros Hx Hnd; cbn [insert_sorted].
  - repeat constructor. intros [].
  - destruct (x <=? y)%string.
    + now constructor.
    + inversion Hnd as [|? ? Hy Hnd']; subst. constructor.
      * intro H. apply In_insert_sorted in H. destruct H as [-> | H];
          [apply Hx; now left | contradiction].
      * apply IH; [|exact Hnd']. intro H. apply Hx. now right.
Qed.

Lemma NoDup_sorted (l : list string) : NoDup l -> NoDup (sorted l).
Proof.
  unfold sorted. induction 1 as [|x l Hx Hnd IH]; cbn [fold_right];
    [constructor|].
  apply NoDup_insert_sorted; [|exact IH].
  intro H. apply Hx. now apply In_sorted.
Qed.

Lemma NoDup_filter {A : Type} (f : A -> bool) (l : list A) :
  NoDup l -> NoDup (filter f l).
Proof.
  induction 1 as [|x l Hx Hnd IH]; cbn [filter]; [constructor|].
  destruct (f x); [|exact IH].
  constructor; [|exact IH]. intro H. apply filter_In in H. tauto.
Qed.

Lemma NoDup_unique (l : list string) : NoDup (unique l).
Proof.
  induction l as [|x l IH]; cbn [unique]; constructor.
  - intro H. apply filter_In in H. destruct H as [_ H].
    rewrite String.eqb_refl in H. discriminate H.
  - now apply NoDup_filter.
Qed.

Lemma sorted_strict (l : list string) :
  StronglySorted leb_prop l -> NoDup l -> StronglySorted String_as_OT.lt l.
Proof.
  induction 1 as [|x l Hs IH Hall]; intro Hnd; constructor.
  - apply IH. now inversion Hnd.
  - inversion Hnd as [|? ? Hx _]; subst.
    apply Forall_forall. intros y Hy. rewrite Forall_forall in Hall.
    specialize (Hall y Hy). apply leb_cases in Hall.
    destruct Hall as [-> | H]; [contradiction | exact H].
Qed.

(** X24. The dropdown offers "All Plants" with the value "all" first, then
    one option per plant identifier of the growth table, label and value
    both the identifier, in strictly ascending order; and when the
    identifiers are those line 47 builds, no two options have the same
    value. *)
Theorem plant_selector_options_spec (G : Globals) :
  exists plants : list string,
    plant_selector_options G
    = ("All Plants", "all") :: map (fun p => (p, p)) plants
    /\ (forall p, In p plants <->
                  exists r, In r (plant_growth G) /\ growth_Plant r = p)
    /\ StronglySorted String_as_OT.lt plants
    /\ NoDup plants
    /\ ((forall r, In r (plant_growth G) -> r = add_growth_Plant (growth r)) ->
        NoDup (map snd (plant_selector_options G))).
Proof.
  exists (sorted (unique (map growth_Plant (plant_growth G)))).
  assert (Hnd : NoDup (sorted (unique (map growth_Plant (plant_growth G)))))
    by (apply NoDup_sorted, NoDup_unique).
  assert (Hin : forall p,
             In p (sorted (unique (map growth_Plant (plant_growth G)))) <->
             exists r, In r (plant_growth G) /\ growth_Plant r = p).
  { intro p. rewrite In_sorted, In_unique, in_map_iff.
    split; intros [r [H1 H2]]; exists r; tauto. }
  split; [reflexivity|]. split; [exact Hin|].
  split; [apply sorted_strict; [apply sorted_sorted | exact Hnd]|].
  split; [exact Hnd|].
  intro Hbuilt. unfold plant_selector_options. cbn [map snd].
  rewrite map_map. cbn [snd]. rewrite map_id. constructor; [|exact Hnd].
  intro Hall. apply Hin in Hall. destruct Hall as [r [Hr Hp]].
  rewrite (Hbuilt r Hr) in Hp.
  pose proof (has_hyphen_joined (astype_str (growth_Level (growth r)))
                (astype_str (growth_Side (growth r)))) as Hh.
  unfold add_growth_Plant in Hp. cbn [growth_Plant] in Hp.
  rewrite Hp in Hh. discriminate Hh.
Qed.

Example sample_options :
  plant_selector_options sample_globals
  = [("All Plants", "all"); ("1-A", "1-A"); ("2-B", "2-B")].
Proof. reflexivity. Qed.

(** X25. The tab callback resets the selector only away from the
    plant-growth tab, and only to "all"; and once it has reset the
    selector, it leaves its own output alone on every later tab change. *)
Theorem reset_dropdown_spec (active_tab current_value : string) :
  (forall v, reset_dropdown_on_tab_change active_tab current_value = Update v ->
             v = "all" /\ active_tab <> "plant-growth-harvest"
             /\ current_value <> "all")
  /\ (active_tab <> "plant-growth-harvest" -> current_value <> "all" ->
      reset_dropdown_on_tab_change active_tab current_value = Update "all")
  /\ reset_dropdown_on_tab_change "plant-growth-harvest" current_value
     = PreventUpdate
  /\ (forall v tab,
        reset_dropdown_on_tab_change active_tab current_value = Update v ->
        reset_dropdown_on_tab_change tab v = PreventUpdate).
Proof.
  unfold reset_dropdown_on_tab_change.
  destruct (String.eqb_spec active_tab "plant-growth-harvest") as [Ht|Ht];
    destruct (String.eqb_spec current_value "all") as [Hv|Hv];
    cbn [negb andb]; repeat split; intros; try discriminate;
    try congruence; try contradiction.
  - match goal with H : Update _ = Update _ |- _ => injection H as <- end.
    destruct (tab =? "plant-growth-harvest")%string; reflexivity.
Qed.

(** ** The module once loaded *)

Lemma convert_sun_data_nil_iff (df : list SunRaw) (out : list SunRecord) :
  convert_sun_data df = Ok out -> (out = [] <-> df = []).
Proof.
  destruct df as [|r df]; cbn [convert_sun_data].
  - intro H. injection H as <-. tauto.
  - destruct (convert_duration (raw_Hours_of_Daylight r)) as [e|h];
      [discriminate|]. cbn [bind].
    destruct (convert_sun_data df) as [e|rest]; [discriminate|].
    cbn [bind Ok]. intro H. injection H as <-. split; discriminate.
Qed.

Lemma prepare_tables (l : Loaded) (G : Globals) :
  prepare l = Ok G ->
  plant_growth G <> [] /\ plant_harvest G <> [] /\ unit_measurements G <> []
  /\ unit_parameters G <> []
  /\ convert_sun_data (loaded_sun_data l) = Ok (sun_data G).
Proof.
  unfold prepare.
  destruct (loaded_plant_growth l) as [|g gs]; [discriminate|].
  destruct (loaded_plant_harvest l) as [|h hs]; [discriminate|].
  cbn [columns_of bind Ok].
  destruct (convert_sun_data (loaded_sun_data l)) as [e|sun];
    cbn [bind Ok]; [discriminate|].
  destruct (loaded_unit_measurements l) as [|m ms]; [discriminate|].
  destruct (loaded_unit_parameters l) as [|u us]; [discriminate|].
  cbn [columns_of bind Ok]. intro H. injection H as <-.
  cbn. repeat split; discriminate.
Qed.

(** X26. Once lines 46-88 have run, the yield, pH, leaf-size and Brix
    evaluators all return a card, and the light evaluator raises [KeyError]
    when the sun data has no row. *)
Theorem evaluators_after_prepare (format_1f format_2f : num -> string)
  (l : Loaded) (G : Globals) :
  prepare l = Ok G ->
  (exists c, get_yield_insight format_1f G = Ok c)
  /\ (exists c, get_ph_insight format_2f G = Ok c)
  /\ (exists c, get_leaf_size_insight format_1f G = Ok c)
  /\ (exists c, get_brix_insight format_1f G = Ok c)
  /\ (loaded_sun_data l = [] ->
      get_light_insight format_1f G = Raise KeyError).
Proof.
  intro H. destruct (prepare_tables l G H) as (Hg & Hh & Hm & Hp & Hsun).
  pose proof (convert_sun_data_nil_iff _ _ Hsun) as Hnil.
  unfold get_yield_insight, get_ph_insight, get_leaf_size_insight,
    get_brix_insight, get_light_insight.
  destruct (plant_growth G) as [|g gs]; [contradiction|].
  destruct (plant_harvest G) as [|h hs]; [contradiction|].
  destruct (unit_measurements G) as [|m ms]; [contradiction|].
  cbn [columns_of bind Ok].
  do 4 (split; [eexists; reflexivity|]).
  intro E. apply Hnil in E. rewrite E. reflexivity.
Qed.

(** On the sample all four return a card; its sun data has rows. *)
Lemma evaluators_after_prepare_witness :
  (exists c, get_yield_insight no_format sample_globals = Ok c)
  /\ (exists c, get_ph_insight no_format sample_globals = Ok c)
  /\ (exists c, get_leaf_size_insight no_format sample_globals = Ok c)
  /\ (exists c, get_brix_insight no_format sample_globals = Ok c)
  /\ (loaded_sun_data sample_loaded = [] ->
      get_light_insight no_format sample_globals = Raise KeyError).
Proof.
  apply (evaluators_after_prepare no_format no_format sample_loaded
           sample_globals).
  vm_compute. reflexivity.
Defined.
